(** * clean-pedal-pricing: the classification-and-extraction engine

    A shallow embedding of [clean-pedal-pricing.py]: the cell classifiers
    ([is_valid_price], [convert_date_to_price], [is_person_name_simple],
    [is_pedal_name]), the row scanner of [clean_spreadsheet] and the
    DataFrame stage that assembles the output records.

    Modelling choices, all visible in the definitions below:
    - a text cell is a Python [str] restricted to code points below 256:
      a Rocq [string] whose characters are read as code points, with the
      character classes ([isspace], [isupper], [isdigit], [isalpha]) and
      [lower] that CPython gives on that range;
    - an [int] is a [Z]; a [float] is its exact rational value, or an
      infinity, or NaN (the scan only compares floats with 0 and 10000);
    - a [datetime] is the record of its seven fields, a valid one satisfies
      [valid_datetime]; date arithmetic goes through proleptic Gregorian
      ordinals as in the [datetime] module;
    - the frame holds its dates as pandas timestamps, whose range depends
      on the [resolution] pandas gives the column: nanoseconds up to
      pandas 2, microseconds from pandas 3 on; [clean_spreadsheet] takes
      it as an argument;
    - exceptions are values of [exn], carried by [result]. *)

From Stdlib Require Import ZArith QArith String Ascii List Bool Lia.
From Stdlib Require Import DecimalString.
Import ListNotations.

Local Open Scope string_scope.
Local Open Scope Z_scope.

(* ================================================================== *)
(** ** Exceptions *)

Inductive exn : Type :=
| KeyError (key : string)
| OverflowError
| OutOfBoundsDatetime
| AttributeError (name : string).

Inductive result (A : Type) : Type :=
| Ok (a : A)
| Raise (e : exn).

Arguments Ok {A} a.
Arguments Raise {A} e.

Definition bind {A B : Type} (r : result A) (k : A -> result B) : result B :=
  match r with
  | Ok a => k a
  | Raise e => Raise e
  end.

Notation "x <- r ;; k" := (bind r (fun x => k))
  (at level 61, r at next level, right associativity).

Fixpoint mapM {A B : Type} (f : A -> result B) (l : list A) : result (list B) :=
  match l with
  | [] => Ok []
  | a :: l' => b <- f a ;; bs <- mapM f l' ;; Ok (b :: bs)
  end.

(* ================================================================== *)
(** ** Python [str] on code points 0..255 *)

Module PyStr.

Definition ord (c : ascii) : Z := Z.of_N (N_of_ascii c).

Definition between (lo hi x : Z) : bool := (lo <=? x) && (x <=? hi).

(** [str.isspace] on one code point: TAB..CR, FS..US, SPACE, NEL, NBSP. *)
Definition isspace (c : ascii) : bool :=
  let n := ord c in
  between 9 13 n || between 28 32 n || (n =? 133) || (n =? 160).

(** [str.isdigit] on one code point: 0-9 and the superscripts 1, 2, 3. *)
Definition isdigit (c : ascii) : bool :=
  let n := ord c in
  between 48 57 n || (n =? 178) || (n =? 179) || (n =? 185).

(** [str.isupper] on one code point: A-Z and the capital letters of the
    Latin-1 supplement (all of 192..222 but the multiplication sign). *)
Definition isupper (c : ascii) : bool :=
  let n := ord c in
  between 65 90 n || (between 192 222 n && negb (n =? 215)).

(** [str.isalpha] on one code point. *)
Definition isalpha (c : ascii) : bool :=
  let n := ord c in
  between 65 90 n || between 97 122 n
  || (n =? 170) || (n =? 181) || (n =? 186)
  || (between 192 255 n && negb (n =? 215) && negb (n =? 247)).

Definition lower_char (c : ascii) : ascii :=
  if isupper c then ascii_of_N (N_of_ascii c + 32) else c.

(** [s.lower()] *)
Fixpoint lower (s : string) : string :=
  match s with
  | EmptyString => EmptyString
  | String c s' => String (lower_char c) (lower s')
  end.

(** [len(s)] *)
Definition len (s : string) : Z := Z.of_nat (String.length s).

(** [bool(s)] *)
Definition nonempty (s : string) : bool :=
  match s with
  | EmptyString => false
  | String _ _ => true
  end.

Fixpoint lstrip (s : string) : string :=
  match s with
  | EmptyString => EmptyString
  | String c s' => if isspace c then lstrip s' else s
  end.

Fixpoint rstrip (s : string) : string :=
  match s with
  | EmptyString => EmptyString
  | String c s' =>
      let r := rstrip s' in
      if isspace c && negb (nonempty r) then EmptyString else String c r
  end.

(** [s.strip()] *)
Definition strip (s : string) : string := rstrip (lstrip s).

(** [sub in s] *)
Fixpoint contains (sub s : string) : bool :=
  String.prefix sub s ||
  match s with
  | EmptyString => false
  | String _ s' => contains sub s'
  end.

(** [s.endswith(suf)] *)
Fixpoint endswith (s suf : string) : bool :=
  String.eqb s suf ||
  match s with
  | EmptyString => false
  | String _ s' => endswith s' suf
  end.

(** [s.split()]: the maximal runs of non-whitespace, in order; [word] is the
    run being read. *)
Fixpoint split_from (word s : string) : list string :=
  match s with
  | EmptyString => if nonempty word then [word] else []
  | String c s' =>
      if isspace c
      then (if nonempty word then word :: split_from EmptyString s'
            else split_from EmptyString s')
      else split_from (word ++ String c EmptyString) s'
  end.

Definition split (s : string) : list string := split_from EmptyString s.

(** [any(p(c) for c in s)] *)
Fixpoint any_char (p : ascii -> bool) (s : string) : bool :=
  match s with
  | EmptyString => false
  | String c s' => p c || any_char p s'
  end.

(** [word and word[0].isupper()] *)
Definition starts_upper (word : string) : bool :=
  match word with
  | EmptyString => false
  | String c _ => isupper c
  end.

(** [x in names] for a list of strings *)
Definition mem (x : string) (names : list string) : bool :=
  existsb (String.eqb x) names.

(** [any(keyword in s for keyword in keywords)] *)
Definition any_in (keywords : list string) (s : string) : bool :=
  existsb (fun keyword => contains keyword s) keywords.

End PyStr.

(* ================================================================== *)
(** ** [datetime] *)

Record datetime : Type := mkdatetime {
  year : Z; month : Z; day : Z;
  hour : Z; minute : Z; second : Z; microsecond : Z
}.

Module PyDate.

Definition is_leap (y : Z) : bool :=
  (y mod 4 =? 0) && (negb (y mod 100 =? 0) || (y mod 400 =? 0)).

Definition days_before_year (y : Z) : Z :=
  let p := y - 1 in p * 365 + p / 4 - p / 100 + p / 400.

(** [_DAYS_IN_MONTH] *)
Definition DAYS_IN_MONTH (m : Z) : Z :=
  if m =? 2 then 28
  else if (m =? 4) || (m =? 6) || (m =? 9) || (m =? 11) then 30
  else 31.

(** [_DAYS_BEFORE_MONTH] *)
Definition DAYS_BEFORE_MONTH (m : Z) : Z :=
  if m <=? 1 then 0 else if m =? 2 then 31 else if m =? 3 then 59
  else if m =? 4 then 90 else if m =? 5 then 120 else if m =? 6 then 151
  else if m =? 7 then 181 else if m =? 8 then 212 else if m =? 9 then 243
  else if m =? 10 then 273 else if m =? 11 then 304 else 334.

Definition days_in_month (y m : Z) : Z :=
  if (m =? 2) && is_leap y then 29 else DAYS_IN_MONTH m.

Definition days_before_month (y m : Z) : Z :=
  DAYS_BEFORE_MONTH m + (if (2 <? m) && is_leap y then 1 else 0).

Definition ymd2ord (y m d : Z) : Z :=
  days_before_year y + days_before_month y m + d.

Definition DI400Y : Z := 146097.
Definition DI100Y : Z := 36524.
Definition DI4Y : Z := 1461.
Definition MAXORDINAL : Z := 3652059.

(** The month and day of the [n]-th day (from 0) of a year. *)
Definition month_day (leapyear : bool) (n : Z) : Z * Z :=
  let month := Z.shiftr (n + 50) 5 in
  let preceding :=
    DAYS_BEFORE_MONTH month + (if (2 <? month) && leapyear then 1 else 0) in
  if n <? preceding
  then
    let month' := month - 1 in
    let preceding' :=
      preceding
      - (DAYS_IN_MONTH month' + (if (month' =? 2) && leapyear then 1 else 0)) in
    (month', n - preceding' + 1)
  else (month, n - preceding + 1).

Definition ord2ymd (n : Z) : Z * Z * Z :=
  let n := n - 1 in
  let n400 := n / DI400Y in
  let n := n mod DI400Y in
  let n100 := n / DI100Y in
  let n := n mod DI100Y in
  let n4 := n / DI4Y in
  let n := n mod DI4Y in
  let n1 := n / 365 in
  let n := n mod 365 in
  let y := n400 * 400 + 1 + n100 * 100 + n4 * 4 + n1 in
  if (n1 =? 4) || (n100 =? 4) then (y - 1, 12, 31)
  else
    let leapyear := (n1 =? 3) && (negb (n4 =? 24) || (n100 =? 3)) in
    let (m, d) := month_day leapyear n in
    (y, m, d).

Definition toordinal (d : datetime) : Z := ymd2ord (year d) (month d) (day d).

(** The values the [datetime] constructor accepts. *)
Definition valid_datetime (d : datetime) : bool :=
  PyStr.between 1 9999 (year d) && PyStr.between 1 12 (month d)
  && PyStr.between 1 (days_in_month (year d) (month d)) (day d)
  && PyStr.between 0 23 (hour d) && PyStr.between 0 59 (minute d)
  && PyStr.between 0 59 (second d) && PyStr.between 0 999999 (microsecond d).

(** Comparison of two datetimes is the comparison of their field tuples. *)
Definition fields (d : datetime) : list Z :=
  [year d; month d; day d; hour d; minute d; second d; microsecond d].

Fixpoint lex (a b : list Z) : comparison :=
  match a, b with
  | [], [] => Eq
  | [], _ :: _ => Lt
  | _ :: _, [] => Gt
  | x :: a', y :: b' =>
      match x ?= y with
      | Eq => lex a' b'
      | c => c
      end
  end.

Definition cmp (a b : datetime) : comparison := lex (fields a) (fields b).

(** [a < b] *)
Definition lt (a b : datetime) : bool :=
  match cmp a b with Lt => true | _ => false end.

(** [a >= b] *)
Definition ge (a b : datetime) : bool :=
  match cmp a b with Lt => false | _ => true end.

(** [d + timedelta(days=n)]: the date moves by [n] days, the time of day is
    kept; out of the supported range the sum raises. *)
Definition add_days (d : datetime) (n : Z) : result datetime :=
  let o := toordinal d + n in
  if (0 <? o) && (o <=? MAXORDINAL)
  then
    let '(y, m, dd) := ord2ymd o in
    Ok (mkdatetime y m dd (hour d) (minute d) (second d) (microsecond d))
  else Raise OverflowError.

Definition digit (n : Z) : ascii := ascii_of_N (48 + Z.to_N (n mod 10)).

Definition pad2 (n : Z) : string :=
  String (digit (n / 10)) (String (digit n) EmptyString).

Definition pad4 (n : Z) : string :=
  String (digit (n / 1000)) (String (digit (n / 100)) (pad2 n)).

(** The year as [%Y] writes it: four digits, and all of its digits when
    it has more. *)
Definition year_text (y : Z) : string :=
  if y <? 10000 then pad4 y
  else NilZero.string_of_uint (N.to_uint (Z.to_N y)).

(** [strftime('%Y-%m-%d')] *)
Definition strftime (d : datetime) : string :=
  year_text (year d) ++ "-" ++ pad2 (month d) ++ "-" ++ pad2 (day d).

(** The calendar day [n] days after [d], at the same time of day. *)
Definition shift_days (d : datetime) (n : Z) : datetime :=
  let '(y, m, dd) := ord2ymd (toordinal d + n) in
  mkdatetime y m dd (hour d) (minute d) (second d) (microsecond d).

End PyDate.

(* ================================================================== *)
(** ** pandas timestamps *)

(** The unit of the [datetime64] column that pandas builds from
    [datetime] objects: nanoseconds up to pandas 2, microseconds from
    pandas 3 on. *)
Inductive resolution : Type :=
| ns
| us.

(** [Timestamp.min] and [Timestamp.max] of a nanosecond timestamp, to the
    microsecond inside the range (1677-09-21 00:12:43.145224193 and
    2262-04-11 23:47:16.854775807), and [Timestamp.max] of a microsecond
    timestamp; its minimum lies before year 1. *)
Definition Timestamp_min_ns : datetime :=
  mkdatetime 1677 9 21 0 12 43 145225.

Definition Timestamp_max_ns : datetime :=
  mkdatetime 2262 4 11 23 47 16 854775.

Definition Timestamp_max_us : datetime :=
  mkdatetime 294247 1 10 4 0 54 775807.

(** The moment fits a timestamp of the resolution. *)
Definition in_bounds (u : resolution) (d : datetime) : bool :=
  match u with
  | ns => PyDate.ge d Timestamp_min_ns && PyDate.ge Timestamp_max_ns d
  | us => PyDate.ge Timestamp_max_us d
  end.

(** [x + timedelta(days=n)] on a [Timestamp]: the sum keeps the
    resolution and raises when it leaves its range. *)
Definition Timestamp_add (u : resolution) (x : datetime) (n : Z)
    : result datetime :=
  let e := PyDate.shift_days x n in
  if in_bounds u e then Ok e else Raise OutOfBoundsDatetime.

(** The type pandas gives a column of [datetime] objects: [datetime64]
    when every one of them fits a timestamp, and else [object], the
    datetimes kept as they are. *)
Inductive dtype : Type :=
| datetime64
| object.

Definition date_dtype (u : resolution) (dates : list datetime) : dtype :=
  if forallb (in_bounds u) dates then datetime64 else object.

(* ================================================================== *)
(** ** Cell values *)

(** A [float]: a finite value (taken exactly), an infinity, or NaN. *)
Inductive pyfloat : Type :=
| FFinite (q : Q)
| FInf (negative : bool)
| FNan.

(** What [ws.cell(r, c).value] can be.  [bool] is a subclass of [int] in
    Python, so a boolean cell passes [isinstance(v, (int, float))].
    [COther] stands for the remaining shapes ([time], [timedelta]): the
    scan only observes their truth value. *)
Inductive cell : Type :=
| CNone
| CBool (b : bool)
| CInt (z : Z)
| CFloat (f : pyfloat)
| CStr (s : string)
| CDate (d : datetime)
| COther (truth : bool).

Definition Qltb (x y : Q) : bool := negb (Qle_bool y x).

(** [f > 0] and [f < 10000] on a float; every comparison with NaN is false. *)
Definition float_gt0 (f : pyfloat) : bool :=
  match f with
  | FFinite q => Qltb 0 q
  | FInf negative => negb negative
  | FNan => false
  end.

Definition float_lt10000 (f : pyfloat) : bool :=
  match f with
  | FFinite q => Qltb q (10000 # 1)
  | FInf negative => negative
  | FNan => false
  end.

(** [bool(v)] *)
Definition truthy (v : cell) : bool :=
  match v with
  | CNone => false
  | CBool b => b
  | CInt z => negb (z =? 0)
  | CFloat (FFinite q) => negb (Qeq_bool q 0)
  | CFloat _ => true
  | CStr s => PyStr.nonempty s
  | CDate _ => true
  | COther truth => truth
  end.

(** [isinstance(v, (int, float))] *)
Definition is_number (v : cell) : bool :=
  match v with
  | CBool _ | CInt _ | CFloat _ => true
  | _ => false
  end.

(** [isinstance(v, str)] *)
Definition is_str (v : cell) : bool :=
  match v with
  | CStr _ => true
  | _ => false
  end.

(** [float(v)] for a number.  The conversion of an [int] is exact up to
    2^53 in absolute value; the scan converts ints between 0 and 10000.
    The scan calls it under [isinstance(price, (int, float))] only, so the
    last case is never evaluated. *)
Definition py_float (v : cell) : pyfloat :=
  match v with
  | CBool b => FFinite (if b then 1 else 0)%Q
  | CInt z => FFinite (inject_Z z)
  | CFloat f => f
  | _ => FNan
  end.

(** [str(v)] for a text cell, the only cells the scan applies it to (see
    [pedal_guard_text] and [person_guard_text]). *)
Definition py_str (v : cell) : string :=
  match v with
  | CStr s => s
  | _ => EmptyString
  end.

(* ================================================================== *)
(** ** Cell classifiers *)

(** [datetime(2025, 7, 24)] *)
Definition anchor : datetime := mkdatetime 2025 7 24 0 0 0 0.

Definition is_date_value (value : cell) : bool :=
  match value with
  | CDate _ => true
  | _ => false
  end.

Definition is_valid_price (value : cell) : bool :=
  match value with
  | CNone => false
  | CDate d => if PyDate.lt d anchor then true else false
  | CBool b => (0 <? Z.b2z b) && (Z.b2z b <? 10000)
  | CInt z => (0 <? z) && (z <? 10000)
  | CFloat f => float_gt0 f && float_lt10000 f
  | _ => false
  end.

Definition convert_date_to_price (value : cell) : cell :=
  match value with
  | CDate d => if PyDate.lt d anchor then CInt (day d) else value
  | _ => value
  end.

Definition skip_keywords_person : list string :=
  ["total"; "fmv"; "$20 less"; "pedal"; "label"; "needs"; "for lot";
   "payout"; "boss "; "mxr "; "tc electronic"; "digitech "; "ibanez ";
   "reverb"; "delay"; "overdrive"; "distortion"; "fuzz"; "chorus";
   "flanger"; "compressor"; "looper"; "wah"; "boost"; "tremolo";
   "preamp"; "squeezer"; "gold"; "ridge"; "ray"; "mjolnir";
   "vemuram"; "neunaber"; "illumine"; "xotic"; "kernom"; "mythos";
   "eqd"; "wd orange"; "jan ray"; "acapulco"; "bb preamp"].

Definition common_first_names : list string :=
  ["michael"; "david"; "james"; "john"; "robert"; "william"; "richard";
   "thomas"; "christopher"; "daniel"; "matthew"; "joseph"; "anthony";
   "donald"; "mark"; "paul"; "steven"; "andrew"; "kenneth"; "joshua";
   "kevin"; "brian"; "george"; "edward"; "ronald"; "timothy"; "jason";
   "jeffrey"; "ryan"; "jacob"; "gary"; "nicholas"; "eric"; "jonathan";
   "stephen"; "larry"; "justin"; "scott"; "brandon"; "frank"; "benjamin";
   "gregory"; "raymond"; "samuel"; "patrick"; "alexander"; "jack"; "dennis";
   "jerry"; "tyler"; "aaron"; "jose"; "adam"; "henry"; "nathan"; "douglas";
   "zachary"; "peter"; "kyle"; "walter"; "ethan"; "jeremy"; "harold";
   "keith"; "christian"; "roger"; "noah"; "gerald"; "carl"; "terry"; "sean";
   "austin"; "arthur"; "lawrence"; "jesse"; "dylan"; "bryan"; "joe"; "jordan";
   "billy"; "bruce"; "albert"; "willie"; "gabriel"; "logan"; "alan"; "juan";
   "wayne"; "roy"; "ralph"; "randy"; "eugene"; "vincent"; "russell"; "elijah";
   "louis"; "bobby"; "philip"; "johnny"; "bradley"; "neil"; "andre"; "jean";
   "rob"; "steve"; "oliver"; "jimmy"; "martin"; "dave"; "matt"; "chris";
   "mike"; "bill"; "bob"; "tom"; "dan"; "jim"; "tony"; "pablo"; "joey";
   "stefan"; "salvatore"; "jimi"; "damon"; "adam"; "jake"; "oliver";
   "vince"; "brett"; "joshua"; "jamie"; "sean"; "dennis"; "doug"; "george";
   "william"; "tracy"; "adan"; "mitchell"; "daryl"; "guy"; "edward"; "jerry";
   "paul"; "jean-claude"; "gandhi"; "randy"; "chris"; "mike"].

Definition brand_indicators : list string :=
  ["micro"; "mini"; "super"; "ultra"; "pro"; "deluxe"; "king"; "master";
   "special"; "custom"; "classic"; "vintage"; "mk"; "v1"; "v2"; "v3"; "v4"].

(** [words[0]]; the caller has checked that there are at least two words. *)
Definition word0 (words : list string) : string := hd EmptyString words.

Definition is_person_name_simple (v : cell) : bool :=
  match v with
  | CStr s =>
      let value := PyStr.strip s in
      if PyStr.len value <? 5 then false
      else if PyStr.endswith value "." then false
      else if PyStr.contains ":" value then false
      else
        let value_lower := PyStr.lower value in
        if PyStr.any_in skip_keywords_person value_lower then false
        else
          let words := PyStr.split value in
          if (Z.of_nat (length words) <? 2) || (4 <? Z.of_nat (length words))
          then false
          else if negb (forallb PyStr.starts_upper words) then false
          else if PyStr.any_char PyStr.isdigit value then false
          else if 60 <? PyStr.len value then false
          else
            let first_word := PyStr.lower (word0 words) in
            if PyStr.mem first_word common_first_names then true
            else if PyStr.any_in brand_indicators value_lower then false
            else false
  | _ => false
  end.

Definition skip_keywords_pedal : list string :=
  ["total"; "fmv"; "$20 less"; "label"; "needs"; "for lot"; "payout"].

Definition pedal_indicators : list string :=
  ["pedal"; "reverb"; "delay"; "overdrive"; "distortion"; "fuzz";
   "chorus"; "flanger"; "wah"; "boost"; "compressor"; "looper";
   "boss"; "mxr"; "tc electronic"; "digitech"; "ibanez";
   "dunlop"; "walrus"; "eqd"; "keeley"; "jhs"; "wampler";
   "line 6"; "behringer"; "mooer"; "pigtronix"; "earthquaker"].

Definition is_pedal_name (v : cell) : bool :=
  match v with
  | CStr value =>
      let value_lower := PyStr.lower value in
      if PyStr.any_in skip_keywords_pedal value_lower then false
      else if PyStr.any_in pedal_indicators value_lower then true
      else if (5 <? PyStr.len value) && PyStr.any_char PyStr.isalpha value
      then true
      else false
  | _ => false
  end.

(* ================================================================== *)
(** ** The worksheet *)

(** A sheet is the list of its rows, a row the list of its cells from
    column A on; a cell that is not stored reads as [None]. *)
Definition worksheet : Type := list (list cell).

(** [ws.cell(r, c).value], rows and columns counted from 1. *)
Definition cell_value (ws : worksheet) (r c : nat) : cell :=
  nth (c - 1) (nth (r - 1) ws []) CNone.

(** [ws.max_row]; it is 1 on a sheet without cells. *)
Definition max_row (ws : worksheet) : nat := Nat.max 1 (length ws).

(* ================================================================== *)
(** ** The scan of [clean_spreadsheet] *)

(** One dictionary appended to [cleaned_data]. *)
Module Cand.
Record t : Type := mk {
  person : string;
  pedal_name : string;
  price : pyfloat;
  date : datetime
}.
End Cand.

(** The variables of the loop. *)
Record scan_state : Type := mkstate {
  cleaned_data : list Cand.t;
  current_person : option string;
  current_date : option datetime;
  last_valid_date : datetime
}.

Definition initial_state : scan_state :=
  mkstate [] None None anchor.

(** [col_b and is_date_value(col_b) and col_b >= datetime(2025, 7, 24)] *)
Definition has_valid_date (col_b : cell) : bool :=
  truthy col_b && is_date_value col_b &&
  match col_b with
  | CDate d => PyDate.ge d anchor
  | _ => false
  end.

(** [col_a and is_person_name_simple(col_a)] *)
Definition is_potential_person (col_a : cell) : bool :=
  truthy col_a && is_person_name_simple col_a.

(** [col and is_pedal_name(col)] *)
Definition pedal_guard (col : cell) : bool :=
  truthy col && is_pedal_name col.

(** [current_person if current_person else 'Unknown'] *)
Definition person_or_unknown (current_person : option string) : string :=
  match current_person with
  | Some p => if PyStr.nonempty p then p else "Unknown"
  | None => "Unknown"
  end.

(** One attempt at a price, on the value of [price] so far:
<<
    if is_valid_price(col):
        price = convert_date_to_price(col)
        if is_date_value(price):
            price = None
>> *)
Definition price_from (col : cell) (price : option cell) : option cell :=
  if is_valid_price col
  then
    let price := convert_date_to_price col in
    if is_date_value price then None else Some price
  else price.

(** The second attempt runs under [price is None and is_valid_price(col)]. *)
Definition retry_price_from (col : cell) (price : option cell) : option cell :=
  match price with
  | None => price_from col None
  | Some _ => price
  end.

(** [if price is not None and isinstance(price, (int, float)): append] *)
Definition emit (current_person : option string) (current_date : datetime)
    (pedal_name : string) (price : option cell) : list Cand.t :=
  match price with
  | Some p =>
      if is_number p
      then [Cand.mk (person_or_unknown current_person) pedal_name
              (py_float p) current_date]
      else []
  | None => []
  end.

(** A column group: the name cell, then the price cells tried in order. *)
Definition group3 (person : option string) (cd : datetime)
    (name primary secondary : cell) : list Cand.t :=
  if pedal_guard name
  then
    let pedal_name := PyStr.strip (py_str name) in
    let price := price_from primary None in
    let price := retry_price_from secondary price in
    emit person cd pedal_name price
  else [].

Definition group2 (person : option string) (cd : datetime)
    (name primary : cell) : list Cand.t :=
  if pedal_guard name
  then
    let pedal_name := PyStr.strip (py_str name) in
    let price := price_from primary None in
    emit person cd pedal_name price
  else [].

(** The check of column H. *)
Definition group_h (person : option string) (cd : datetime)
    (col_a col_d col_h : cell) : list Cand.t :=
  if truthy col_h && is_valid_price col_h
  then
    let price := convert_date_to_price col_h in
    if negb (is_date_value price) && is_number price
    then
      let pedal_name :=
        if pedal_guard col_a then Some (PyStr.strip (py_str col_a))
        else if pedal_guard col_d then Some (PyStr.strip (py_str col_d))
        else None in
      match pedal_name with
      | Some n =>
          if PyStr.nonempty n
          then [Cand.mk (person_or_unknown person) n (py_float price) cd]
          else []
      | None => []
      end
    else []
  else [].

(** The records appended for one data row, in the order of the source. *)
Definition extract_row (person : option string) (cd : datetime)
    (col_a col_b col_c col_d col_e col_f col_g col_h : cell) : list Cand.t :=
  group3 person cd col_a col_b col_c
  ++ group3 person cd col_d col_e col_f
  ++ group2 person cd col_f col_g
  ++ group_h person cd col_a col_d col_h.

(** The body of the loop on row [row_idx]. *)
Definition process_row (ws : worksheet) (st : scan_state) (row_idx : nat)
    : scan_state :=
  let col_a := cell_value ws row_idx 1 in
  let col_b := cell_value ws row_idx 2 in
  let col_c := cell_value ws row_idx 3 in
  let col_d := cell_value ws row_idx 4 in
  let col_e := cell_value ws row_idx 5 in
  let col_f := cell_value ws row_idx 6 in
  let col_g := cell_value ws row_idx 7 in
  let col_h := cell_value ws row_idx 8 in
  if is_potential_person col_a && has_valid_date col_b
  then
    (* [has_valid_date] holds of dates only *)
    match col_b with
    | CDate d =>
        mkstate (cleaned_data st) (Some (PyStr.strip (py_str col_a)))
          (Some d) d
    | _ => st
    end
  else if is_potential_person col_a && negb (has_valid_date col_b)
  then
    mkstate (cleaned_data st) (Some (PyStr.strip (py_str col_a)))
      (Some (last_valid_date st)) (last_valid_date st)
  else
    let cd :=
      match current_date st with
      | None => last_valid_date st
      | Some d => d
      end in
    mkstate
      (cleaned_data st
       ++ extract_row (current_person st) cd
            col_a col_b col_c col_d col_e col_f col_g col_h)
      (current_person st) (Some cd) (last_valid_date st).

(** [for row_idx in range(1, ws.max_row + 1)] *)
Definition scan (ws : worksheet) : scan_state :=
  fold_left (process_row ws) (seq 1 (max_row ws)) initial_state.

(* ================================================================== *)
(** ** The DataFrame stage *)

(** The part of a [DataFrame] built from a list of dictionaries that
    [clean_spreadsheet] uses: its column labels, the keys of the
    dictionaries (none when the list is empty), and its rows. *)
Record DataFrame : Type := mkframe {
  columns : list string;
  rows : list Cand.t
}.

(** [pd.DataFrame(cleaned_data)] *)
Definition DataFrame_of (data : list Cand.t) : DataFrame :=
  match data with
  | [] => mkframe [] []
  | _ :: _ => mkframe ["person"; "pedal_name"; "price"; "date"] data
  end.

(** [df[key]] for a column of dates: a label that is no column raises. *)
Definition getitem_date (df : DataFrame) (key : string)
    : result (list datetime) :=
  if PyStr.mem key (columns df)
  then Ok (map Cand.date (rows df))
  else Raise (KeyError key).

(** A row of the frame that is returned. *)
Module Out.
Record t : Type := mk {
  pedal_name : string;
  price : pyfloat;
  date : string;
  expiration_date : string
}.
End Out.

Fixpoint assemble (rs : list Cand.t) (exps : list datetime) : list Out.t :=
  match rs, exps with
  | r :: rs', e :: exps' =>
      Out.mk (Cand.pedal_name r) (Cand.price r)
        (PyDate.strftime (Cand.date r)) (PyDate.strftime e)
      :: assemble rs' exps'
  | _, _ => []
  end.

(** [clean_spreadsheet], from the loaded sheet on, under the resolution
    [u] of the installed pandas.  On a [datetime64] column [apply] hands
    timestamps to the lambda and [.dt.strftime] writes the texts; on an
    [object] column the lambda adds to the [datetime] objects themselves
    and the [.dt] accessor then raises. *)
Definition clean_spreadsheet (u : resolution) (ws : worksheet)
    : result (list Out.t) :=
  let df := DataFrame_of (cleaned_data (scan ws)) in
  dates <- getitem_date df "date" ;;
  match date_dtype u dates with
  | datetime64 =>
      exps <- mapM (fun x => Timestamp_add u x 365) dates ;;
      Ok (assemble (rows df) exps)
  | object =>
      exps <- mapM (fun x => PyDate.add_days x 365) dates ;;
      Raise (AttributeError "dt")
  end.

(* ================================================================== *)
(** ** The vocabulary of the properties *)

(** [s] contains [kw] when case is ignored. *)
Definition contains_ci (kw s : string) : bool :=
  PyStr.contains (PyStr.lower kw) (PyStr.lower s).

(** A number strictly between 0 and 10000.  NaN and the infinities satisfy
    neither bound. *)
Definition in_price_range (v : cell) : Prop :=
  match v with
  | CBool b => 0 < Z.b2z b < 10000
  | CInt z => 0 < z < 10000
  | CFloat (FFinite q) => (0 < q /\ q < 10000 # 1)%Q
  | _ => False
  end.

(** The same on the float of a record. *)
Definition price_in_range (f : pyfloat) : Prop :=
  match f with
  | FFinite q => (0 < q /\ q < 10000 # 1)%Q
  | _ => False
  end.

(** The conditions of the person-name heuristic on a text [t]: length
    between 5 and 60, no final period, no colon, no denylist substring,
    two to four words, each capitalised, no digit, and a known first name
    as first word. *)
Definition person_name_shape (t : string) : Prop :=
  5 <= PyStr.len t <= 60
  /\ PyStr.endswith t "." = false
  /\ PyStr.contains ":" t = false
  /\ (forall kw, In kw skip_keywords_person -> contains_ci kw t = false)
  /\ (2 <= length (PyStr.split t) <= 4)%nat
  /\ Forall (fun w => PyStr.starts_upper w = true) (PyStr.split t)
  /\ PyStr.any_char PyStr.isdigit t = false
  /\ In (PyStr.lower (word0 (PyStr.split t))) common_first_names.

(** The value of the digit [c], when it is one of 0-9. *)
Definition digit_value (c : ascii) : option Z :=
  let n := PyStr.ord c in
  if PyStr.between 48 57 n then Some (n - 48) else None.

Definition number2 (a b : ascii) : option Z :=
  match digit_value a, digit_value b with
  | Some x, Some y => Some (10 * x + y)
  | _, _ => None
  end.

(** The year, month and day that a text of the form YYYY-MM-DD denotes;
    [None] on a text of another form. *)
Definition read_ymd (s : string) : option (Z * Z * Z) :=
  match s with
  | String y1 (String y2 (String y3 (String y4 (String "-"
      (String m1 (String m2 (String "-"
      (String d1 (String d2 EmptyString))))))))) =>
      match number2 y1 y2, number2 y3 y4, number2 m1 m2, number2 d1 d2 with
      | Some yh, Some yl, Some m, Some d => Some (100 * yh + yl, m, d)
      | _, _, _, _ => None
      end
  | _ => None
  end.

(** Every date cell of the sheet holds a value the [datetime] constructor
    accepts. *)
Definition cell_wf (v : cell) : bool :=
  match v with
  | CDate d => PyDate.valid_datetime d
  | _ => true
  end.

Definition sheet_wf (ws : worksheet) : bool := forallb (forallb cell_wf) ws.

(** The table check behind [month_day]: the month and the day are in
    range and count back to the day of the year. *)
Definition month_day_ok (leapyear : bool) (n : Z) : bool :=
  let '(m, d) := PyDate.month_day leapyear n in
  PyStr.between 1 12 m
  && PyStr.between 1
       (PyDate.DAYS_IN_MONTH m + (if (m =? 2) && leapyear then 1 else 0)) d
  && (PyDate.DAYS_BEFORE_MONTH m + (if (2 <? m) && leapyear then 1 else 0) + d
      =? n + 1).

(** What holds of every record the scan appends, and of the loop variables
    that feed it. *)
Definition cand_ok (c : Cand.t) : Prop :=
  PyDate.valid_datetime (Cand.date c) = true /\ price_in_range (Cand.price c).

Definition state_ok (st : scan_state) : Prop :=
  Forall cand_ok (cleaned_data st)
  /\ PyDate.valid_datetime (last_valid_date st) = true
  /\ (forall d, current_date st = Some d -> PyDate.valid_datetime d = true).

(** The sheet of the end-to-end example: a person row, then a pedal row. *)
Definition tube_screamer_sheet : worksheet :=
  [[CStr "Mike Jones"; CDate (mkdatetime 2025 7 25 0 0 0 0)];
   [CStr "Tube Screamer"; CInt 120; CNone]].

(** A sheet whose only row is a summary line. *)
Definition total_sheet : worksheet := [[CStr "Total"; CInt 500]].

(** A sale dated in the last year that a [datetime] can hold. *)
Definition year_9999_sheet : worksheet :=
  [[CStr "Mike Jones"; CDate (mkdatetime 9999 1 1 0 0 0 0)];
   [CStr "Tube Screamer"; CInt 120; CNone]].

(* ================================================================== *)
(** ** The vocabulary of the properties of the scan *)

(** The date a data row works under: [current_date] after its lazy
    default. *)
Definition effective_date (st : scan_state) : datetime :=
  match current_date st with
  | Some d => d
  | None => last_valid_date st
  end.

(** The records of row [row_idx] under a person and a date. *)
Definition row_records (ws : worksheet) (row_idx : nat)
    (person : option string) (cd : datetime) : list Cand.t :=
  extract_row person cd
    (cell_value ws row_idx 1) (cell_value ws row_idx 2)
    (cell_value ws row_idx 3) (cell_value ws row_idx 4)
    (cell_value ws row_idx 5) (cell_value ws row_idx 6)
    (cell_value ws row_idx 7) (cell_value ws row_idx 8).

(** The dictionary appended for a name cell and a price cell. *)
Definition record_of (person : option string) (cd : datetime)
    (name price : cell) : Cand.t :=
  Cand.mk (person_or_unknown person) (PyStr.strip (py_str name))
    (py_float (convert_date_to_price price)) cd.

(** The columns (name, price) that the extractor reads together. *)
Definition column_pairs : list (nat * nat) :=
  [(1, 2); (1, 3); (4, 5); (4, 6); (6, 7); (1, 8); (4, 8)]%nat.

(** The record [c] is made of a name cell and a price cell of row [r]. *)
Definition from_row (ws : worksheet) (r : nat) (c : Cand.t) : Prop :=
  exists nc pc,
    In (nc, pc) column_pairs
    /\ pedal_guard (cell_value ws r nc) = true
    /\ is_valid_price (cell_value ws r pc) = true
    /\ Cand.pedal_name c = PyStr.strip (py_str (cell_value ws r nc))
    /\ Cand.price c
       = py_float (convert_date_to_price (cell_value ws r pc)).

(** Where a date of the scan comes from: the anchor, or column B of a
    person row, when it holds a date from the anchor on. *)
Definition date_source (ws : worksheet) (d : datetime) : Prop :=
  d = anchor
  \/ exists r,
       (1 <= r <= max_row ws)%nat
       /\ is_person_name_simple (cell_value ws r 1) = true
       /\ cell_value ws r 2 = CDate d
       /\ PyDate.ge d anchor = true.

(** Where a person of the scan comes from: the sentinel, or column A of a
    person row, stripped. *)
Definition person_source (ws : worksheet) (p : string) : Prop :=
  p = "Unknown"
  \/ exists r s,
       (1 <= r <= max_row ws)%nat
       /\ is_person_name_simple (cell_value ws r 1) = true
       /\ cell_value ws r 1 = CStr s
       /\ p = PyStr.strip s.

(** A calendar day that is 2025-07-24 or later. *)
Definition on_or_after_anchor (y m d : Z) : Prop :=
  2025 < y \/ (y = 2025 /\ (7 < m \/ (m = 7 /\ 24 <= d))).

(** The text has a character that is not whitespace. *)
Definition has_text (s : string) : bool :=
  PyStr.any_char (fun c => negb (PyStr.isspace c)) s.

(** The first and the last character of a text. *)
Definition first_char (s : string) : option ascii :=
  match s with
  | EmptyString => None
  | String c _ => Some c
  end.

Fixpoint last_char (s : string) : option ascii :=
  match s with
  | EmptyString => None
  | String c EmptyString => Some c
  | String _ s' => last_char s'
  end.

(** What the loop variables and the records hold at any point of the
    scan of [ws]. *)
Definition sourced_state (ws : worksheet) (st : scan_state) : Prop :=
  Forall (fun c => date_source ws (Cand.date c)
                   /\ person_source ws (Cand.person c)
                   /\ PyStr.nonempty (Cand.person c) = true)
    (cleaned_data st)
  /\ date_source ws (last_valid_date st)
  /\ (forall d, current_date st = Some d -> date_source ws d)
  /\ (forall p, current_person st = Some p ->
        person_source ws p /\ PyStr.nonempty p = true).

(** A row that fills the four checks of the extractor. *)
Definition four_record_sheet : worksheet :=
  [[CStr "Boss DS-1"; CInt 50; CNone; CStr "MXR Phase 90"; CInt 60;
    CStr "Walrus Julia"; CInt 70; CInt 80]].

(* ================================================================== *)
(** ** The models of [str] and [datetime] on known values *)

Example strip_example : PyStr.strip "  John   Smith. " = "John   Smith.".
Proof. reflexivity. Qed.

Example split_example : PyStr.split "  John   Smith. " = ["John"; "Smith."].
Proof. reflexivity. Qed.

Example lower_example : PyStr.lower "MXR Micro Amp" = "mxr micro amp".
Proof. reflexivity. Qed.

Example contains_example :
  PyStr.contains "mxr " "mxr micro amp" = true
  /\ PyStr.contains "boss " "boss" = false.
Proof. split; reflexivity. Qed.

Example toordinal_anchor : PyDate.toordinal anchor = 739456.
Proof. reflexivity. Qed.

Example ord2ymd_leap_day : PyDate.ord2ymd (PyDate.ymd2ord 2024 2 29) = (2024, 2, 29).
Proof. reflexivity. Qed.

Example ord2ymd_max : PyDate.ord2ymd PyDate.MAXORDINAL = (9999, 12, 31).
Proof. reflexivity. Qed.

Example add_days_over_leap_day :
  PyDate.add_days (mkdatetime 2027 7 24 13 30 0 0) 365
  = Ok (mkdatetime 2028 7 23 13 30 0 0).
Proof. reflexivity. Qed.

Example add_days_out_of_range :
  PyDate.add_days (mkdatetime 9999 1 1 0 0 0 0) 365 = Raise OverflowError.
Proof. reflexivity. Qed.

(** The column H check of the source: a price miscoded as 1900-01-15 next
    to a pedal name in column A gives a record of price 15.0 at the date in
    force. *)
Example column_h_example :
  forall u,
    clean_spreadsheet u
      [[CStr "Boss Chorus"; CNone; CNone; CNone; CNone; CNone; CNone;
        CDate (mkdatetime 1900 1 15 0 0 0 0)]]
    = Ok [Out.mk "Boss Chorus" (FFinite (15 # 1)) "2025-07-24" "2026-07-24"].
Proof. intros []; vm_compute; reflexivity. Qed.

Example strftime_year_10000 :
  PyDate.strftime (mkdatetime 10000 1 1 0 0 0 0) = "10000-01-01".
Proof. reflexivity. Qed.

Example Timestamp_add_past_ns_range :
  Timestamp_add ns (mkdatetime 2261 6 1 0 0 0 0) 365
  = Raise OutOfBoundsDatetime.
Proof. reflexivity. Qed.

Example Timestamp_add_year_10000 :
  Timestamp_add us (mkdatetime 9999 1 1 0 0 0 0) 365
  = Ok (mkdatetime 10000 1 1 0 0 0 0).
Proof. reflexivity. Qed.

(** A sale dated 2261-06-01 fits a nanosecond timestamp and its
    expiration date does not: the sum raises. *)
Example sale_in_2261_under_ns :
  clean_spreadsheet ns
    [[CStr "Mike Jones"; CDate (mkdatetime 2261 6 1 0 0 0 0)];
     [CStr "Tube Screamer"; CInt 120; CNone]]
  = Raise OutOfBoundsDatetime.
Proof. vm_compute. reflexivity. Qed.

Example sale_in_2261_under_us :
  clean_spreadsheet us
    [[CStr "Mike Jones"; CDate (mkdatetime 2261 6 1 0 0 0 0)];
     [CStr "Tube Screamer"; CInt 120; CNone]]
  = Ok [Out.mk "Tube Screamer" (FFinite (120 # 1))
          "2261-06-01" "2262-06-01"].
Proof. vm_compute. reflexivity. Qed.

(* ================================================================== *)
(** ** The price classifiers *)

Lemma Qltb_lt (x y : Q) : Qltb x y = true <-> (x < y)%Q.
Proof.
  unfold Qltb. rewrite negb_true_iff.
  split; intro H.
  - apply Qnot_le_lt. intro Hle.
    apply Qle_bool_iff in Hle. congruence.
  - destruct (Qle_bool y x) eqn:E; [|reflexivity].
    apply Qle_bool_iff in E. exfalso. exact (Qlt_not_le _ _ H E).
Qed.

Lemma is_valid_price_number (v : cell) :
  is_number v = true -> (is_valid_price v = true <-> in_price_range v).
Proof.
  destruct v as [ | b | z | f | s | d | o]; simpl; try discriminate; intros _.
  - destruct b; simpl; split; (lia || discriminate).
  - rewrite andb_true_iff, Z.ltb_lt, Z.ltb_lt. reflexivity.
  - destruct f as [q | neg | ]; simpl.
    + rewrite andb_true_iff, !Qltb_lt. reflexivity.
    + destruct neg; simpl; split; (discriminate || tauto).
    + split; (discriminate || tauto).
Qed.

Lemma ge_is_not_lt (a b : datetime) : PyDate.ge a b = negb (PyDate.lt a b).
Proof. unfold PyDate.ge, PyDate.lt. destruct (PyDate.cmp a b); reflexivity. Qed.

(** C3. [is_valid_price] is false on an absent cell; on a date it is true
    exactly when the date is strictly earlier than 2025-07-24, so false on
    every date from the anchor on; on a number (an [int], a [bool], which
    Python counts among the ints, or a [float]) it is true exactly when the
    number is strictly between 0 and 10000; it is false on every other
    shape, and so on every text. *)
Theorem is_valid_price_spec :
  is_valid_price CNone = false
  /\ (forall d, is_valid_price (CDate d) = true <-> PyDate.lt d anchor = true)
  /\ (forall d, PyDate.ge d anchor = true -> is_valid_price (CDate d) = false)
  /\ (forall v, is_number v = true ->
        (is_valid_price v = true <-> in_price_range v))
  /\ (forall v, is_date_value v = false -> is_number v = false ->
        is_valid_price v = false)
  /\ (forall s, is_valid_price (CStr s) = false).
Proof.
  split; [reflexivity|].
  split; [intro d; simpl; destruct (PyDate.lt d anchor); tauto|].
  split.
  { intros d H. rewrite ge_is_not_lt in H. simpl.
    destruct (PyDate.lt d anchor); [discriminate | reflexivity]. }
  split; [exact is_valid_price_number|].
  split; [|reflexivity].
  intros v Hd Hn. destruct v; simpl in *; congruence.
Qed.

(** C4. On a date strictly earlier than 2025-07-24,
    [convert_date_to_price] returns the day of the month; every other value
    is returned as it is.  1900-03-20 gives 20 and 2024-11-05 gives 5. *)
Theorem convert_date_to_price_spec :
  (forall d, PyDate.lt d anchor = true ->
     convert_date_to_price (CDate d) = CInt (day d))
  /\ (forall v, (forall d, v = CDate d -> PyDate.lt d anchor = false) ->
        convert_date_to_price v = v)
  /\ convert_date_to_price (CDate (mkdatetime 1900 3 20 0 0 0 0)) = CInt 20
  /\ convert_date_to_price (CDate (mkdatetime 2024 11 5 0 0 0 0)) = CInt 5.
Proof.
  split.
  { intros d H. simpl. rewrite H. reflexivity. }
  split.
  { intros v H. destruct v; try reflexivity.
    simpl. rewrite (H d eq_refl). reflexivity. }
  split; reflexivity.
Qed.

Lemma valid_price_converts (v : cell) :
  is_valid_price v = true ->
  is_date_value (convert_date_to_price v) = false
  /\ is_number (convert_date_to_price v) = true.
Proof.
  destruct v as [ | b | z | f | s | d | o]; simpl; try discriminate;
    try (intros _; split; reflexivity).
  destruct (PyDate.lt d anchor); [|discriminate].
  intros _; split; reflexivity.
Qed.

(** C9. When [is_valid_price(v)] holds, [convert_date_to_price(v)] is a
    number and not a date.  So the branch of the row extractor that throws
    the recovered price away is never taken: an attempt on such a cell always
    sets the price to the converted value, and the test of the column H check
    on the converted value always passes. *)
Theorem valid_price_never_recovers_date (v : cell) :
  is_valid_price v = true ->
  is_date_value (convert_date_to_price v) = false
  /\ is_number (convert_date_to_price v) = true
  /\ (forall price, price_from v price = Some (convert_date_to_price v))
  /\ negb (is_date_value (convert_date_to_price v))
     && is_number (convert_date_to_price v) = true.
Proof.
  intro H. destruct (valid_price_converts v H) as [Hd Hn].
  repeat split; try assumption.
  - intro price. unfold price_from. rewrite H, Hd. reflexivity.
  - rewrite Hd, Hn. reflexivity.
Qed.

Lemma valid_price_never_recovers_date_witness :
  is_valid_price (CDate (mkdatetime 1900 3 20 0 0 0 0)) = true
  /\ is_number
       (convert_date_to_price (CDate (mkdatetime 1900 3 20 0 0 0 0))) = true.
Proof.
  split; [reflexivity|].
  exact (proj1 (proj2
    (valid_price_never_recovers_date
       (CDate (mkdatetime 1900 3 20 0 0 0 0)) eq_refl))).
Defined.

(* ================================================================== *)
(** ** The name classifiers *)

Section Lists.

Variable l : list string.

Lemma any_in_true (s : string) :
  PyStr.any_in l s = true <->
  exists kw, In kw l /\ PyStr.contains kw s = true.
Proof. unfold PyStr.any_in. apply existsb_exists. Qed.

Lemma any_in_false (s : string) :
  PyStr.any_in l s = false <->
  forall kw, In kw l -> PyStr.contains kw s = false.
Proof.
  split.
  - intros H kw Hin. destruct (PyStr.contains kw s) eqn:E; [|reflexivity].
    assert (PyStr.any_in l s = true) by (apply any_in_true; eauto).
    congruence.
  - intro H. destruct (PyStr.any_in l s) eqn:E; [|reflexivity].
    apply any_in_true in E. destruct E as (kw & Hin & Hc).
    rewrite (H kw Hin) in Hc. discriminate.
Qed.

Lemma mem_In (x : string) : PyStr.mem x l = true <-> In x l.
Proof.
  unfold PyStr.mem. rewrite existsb_exists. split.
  - intros (y & Hin & He). apply String.eqb_eq in He. now subst.
  - intro H. exists x. split; [assumption | apply String.eqb_refl].
Qed.

(** The keywords of the source are written in lower case. *)
Hypothesis lowercase :
  forallb (fun kw => String.eqb (PyStr.lower kw) kw) l = true.

Lemma lower_keyword (kw : string) : In kw l -> PyStr.lower kw = kw.
Proof.
  intro H. rewrite forallb_forall in lowercase.
  apply String.eqb_eq. now apply lowercase.
Qed.

Lemma any_in_ci_true (s : string) :
  PyStr.any_in l (PyStr.lower s) = true <->
  exists kw, In kw l /\ contains_ci kw s = true.
Proof.
  rewrite any_in_true. unfold contains_ci.
  split; intros (kw & Hin & Hc); exists kw; split; trivial.
  - now rewrite lower_keyword.
  - now rewrite lower_keyword in Hc.
Qed.

Lemma any_in_ci_false (s : string) :
  PyStr.any_in l (PyStr.lower s) = false <->
  forall kw, In kw l -> contains_ci kw s = false.
Proof.
  rewrite any_in_false. unfold contains_ci.
  split; intros H kw Hin.
  - rewrite lower_keyword by assumption. now apply H.
  - rewrite <- (lower_keyword kw) by assumption. now apply H.
Qed.

End Lists.

(** *** [split] does not see the surrounding whitespace *)

Lemma split_from_lstrip (s : string) :
  PyStr.split_from EmptyString (PyStr.lstrip s) = PyStr.split_from EmptyString s.
Proof.
  induction s as [|c s IH]; [reflexivity|].
  simpl. destruct (PyStr.isspace c) eqn:E.
  - exact IH.
  - simpl. rewrite E. reflexivity.
Qed.

Lemma split_from_rstrip (s : string) :
  forall word,
    PyStr.split_from word (PyStr.rstrip s) = PyStr.split_from word s.
Proof.
  induction s as [|c s IH]; intro word; [reflexivity|].
  simpl. destruct (PyStr.isspace c) eqn:E; simpl.
  - destruct (PyStr.nonempty (PyStr.rstrip s)) eqn:N; simpl.
    + rewrite E, !IH. reflexivity.
    + assert (Hnil : PyStr.split_from EmptyString s = []).
      { rewrite <- IH. destruct (PyStr.rstrip s); [reflexivity|discriminate]. }
      rewrite Hnil. reflexivity.
  - rewrite E. apply IH.
Qed.

Lemma split_strip (s : string) : PyStr.split (PyStr.strip s) = PyStr.split s.
Proof.
  unfold PyStr.split, PyStr.strip.
  rewrite split_from_rstrip. apply split_from_lstrip.
Qed.

(** *** [is_person_name_simple] *)

Lemma person_keywords_lowercase :
  forallb (fun kw => String.eqb (PyStr.lower kw) kw) skip_keywords_person
  = true.
Proof. vm_compute. reflexivity. Qed.

Lemma pedal_keywords_lowercase :
  forallb (fun kw => String.eqb (PyStr.lower kw) kw) skip_keywords_pedal
  = true.
Proof. vm_compute. reflexivity. Qed.

Lemma pedal_indicators_lowercase :
  forallb (fun kw => String.eqb (PyStr.lower kw) kw) pedal_indicators = true.
Proof. vm_compute. reflexivity. Qed.

Lemma is_person_name_simple_text (s : string) :
  is_person_name_simple (CStr s) = true <-> person_name_shape (PyStr.strip s).
Proof.
  unfold is_person_name_simple, person_name_shape.
  set (t := PyStr.strip s).
  rewrite <- (any_in_ci_false _ person_keywords_lowercase).
  rewrite <- mem_In, Forall_forall, <- forallb_forall.
  destruct (PyStr.len t <? 5) eqn:E1.
  { apply Z.ltb_lt in E1. split; [discriminate | lia]. }
  apply Z.ltb_ge in E1.
  destruct (PyStr.endswith t ".") eqn:E2.
  { split; [discriminate | intros (_ & H & _); discriminate]. }
  destruct (PyStr.contains ":" t) eqn:E3.
  { split; [discriminate | intros (_ & _ & H & _); discriminate]. }
  destruct (PyStr.any_in skip_keywords_person (PyStr.lower t)) eqn:E4.
  { split; [discriminate | intros (_ & _ & _ & H & _); discriminate]. }
  destruct ((Z.of_nat (length (PyStr.split t)) <? 2)
            || (4 <? Z.of_nat (length (PyStr.split t)))) eqn:E5.
  { apply orb_true_iff in E5. rewrite !Z.ltb_lt in E5.
    split; [discriminate | intros (_ & _ & _ & _ & H & _); lia]. }
  apply orb_false_iff in E5. rewrite !Z.ltb_ge in E5.
  destruct (forallb PyStr.starts_upper (PyStr.split t)) eqn:E6; cbn [negb].
  2:{ split; [discriminate | intros (_ & _ & _ & _ & _ & H & _); discriminate]. }
  destruct (PyStr.any_char PyStr.isdigit t) eqn:E7.
  { split; [discriminate | intros (_ & _ & _ & _ & _ & _ & H & _); discriminate]. }
  destruct (60 <? PyStr.len t) eqn:E8.
  { apply Z.ltb_lt in E8. split; [discriminate | lia]. }
  apply Z.ltb_ge in E8.
  destruct (PyStr.mem (PyStr.lower (word0 (PyStr.split t))) common_first_names)
    eqn:E9.
  - split; [intros _ | intros _; reflexivity].
    repeat split; trivial; lia.
  - split; [|intros (_ & _ & _ & _ & _ & _ & _ & H); discriminate].
    destruct (PyStr.any_in brand_indicators (PyStr.lower t)); discriminate.
Qed.

(** C5, as it holds.  [is_person_name_simple(v)] is true only when [v] is
    a text whose first word, in lower case, is one of the known first
    names; when that word is not in the list the result is false, whatever
    the brand-modifier check would say.  It is true exactly when [v] is a
    text that, once its leading and trailing whitespace is removed, has
    length between 5 and 60, does not end in a period, has no colon and no
    denylist substring, has two to four words that each start with a
    capital letter, has no digit, and has a known first name as first word.
    The three examples of the claim evaluate as it says. *)
Theorem is_person_name_simple_spec :
  (forall v, is_person_name_simple v = true <->
     exists s, v = CStr s /\ person_name_shape (PyStr.strip s))
  /\ (forall v, is_person_name_simple v = true ->
        exists s, v = CStr s
          /\ In (PyStr.lower (word0 (PyStr.split s))) common_first_names)
  /\ (forall s, ~ In (PyStr.lower (word0 (PyStr.split s))) common_first_names ->
        is_person_name_simple (CStr s) = false)
  /\ is_person_name_simple (CStr "John Smith") = true
  /\ is_person_name_simple (CStr "Neunaber: Illumine") = false
  /\ is_person_name_simple (CStr "MXR Micro Amp") = false.
Proof.
  assert (Hfirst : forall s, is_person_name_simple (CStr s) = true ->
            In (PyStr.lower (word0 (PyStr.split s))) common_first_names).
  { intros s H. apply is_person_name_simple_text in H.
    destruct H as (_ & _ & _ & _ & _ & _ & _ & H).
    now rewrite split_strip in H. }
  split.
  { intro v. split.
    - intro H. destruct v as [ | | | | s | | ]; try discriminate.
      exists s. split; [reflexivity | now apply is_person_name_simple_text].
    - intros (s & -> & H). now apply is_person_name_simple_text. }
  split.
  { intros v H. destruct v as [ | | | | s | | ]; try discriminate.
    exists s. split; [reflexivity | now apply Hfirst]. }
  split.
  { intros s Hn. destruct (is_person_name_simple (CStr s)) eqn:E;
      [|reflexivity].
    exfalso. apply Hn. now apply Hfirst. }
  repeat split; vm_compute; reflexivity.
Qed.

Lemma trailing_space_shape : person_name_shape "John Smith. ".
Proof.
  unfold person_name_shape.
  rewrite <- (any_in_ci_false _ person_keywords_lowercase).
  rewrite <- mem_In, Forall_forall, <- forallb_forall.
  repeat split; first [ vm_compute; reflexivity | vm_compute; discriminate | vm_compute; lia ].
Qed.

(** C5, as the claim words it, with the conditions read on [v] itself: the
    text "John Smith. " (a space after the period) meets every condition,
    since it does not end in a period, yet the predicate strips it first
    and rejects it. *)
Lemma is_person_name_simple_unstripped_counterexample :
  ~ (is_person_name_simple (CStr "John Smith. ") = true
     <-> person_name_shape "John Smith. ").
Proof.
  intros [_ H]. specialize (H trailing_space_shape).
  vm_compute in H. discriminate.
Qed.

(** *** [is_pedal_name] *)

Lemma is_pedal_name_text (s : string) :
  is_pedal_name (CStr s) =
  if PyStr.any_in skip_keywords_pedal (PyStr.lower s) then false
  else if PyStr.any_in pedal_indicators (PyStr.lower s) then true
  else (5 <? PyStr.len s) && PyStr.any_char PyStr.isalpha s.
Proof.
  unfold is_pedal_name.
  destruct (PyStr.any_in skip_keywords_pedal (PyStr.lower s)); [reflexivity|].
  destruct (PyStr.any_in pedal_indicators (PyStr.lower s)); [reflexivity|].
  destruct ((5 <? PyStr.len s) && PyStr.any_char PyStr.isalpha s);
    reflexivity.
Qed.

(** C6. [is_pedal_name(v)] is false unless [v] is a text; it is false when
    [v] contains, case ignored, one of total, fmv, "$20 less", label, needs,
    "for lot", payout; otherwise it is true when [v] contains, case ignored,
    one of the gear, brand and category keywords; otherwise it is true
    exactly when [v] is longer than 5 and has an alphabetic character.
    "Boss DS-1 Distortion" is a pedal name and "Total" is not. *)
Theorem is_pedal_name_spec :
  (forall v, is_str v = false -> is_pedal_name v = false)
  /\ (forall s kw,
        In kw ["total"; "fmv"; "$20 less"; "label"; "needs"; "for lot";
               "payout"] ->
        contains_ci kw s = true -> is_pedal_name (CStr s) = false)
  /\ (forall s,
        (forall kw,
           In kw ["total"; "fmv"; "$20 less"; "label"; "needs"; "for lot";
                  "payout"] -> contains_ci kw s = false) ->
        ((exists kw, In kw pedal_indicators /\ contains_ci kw s = true) ->
         is_pedal_name (CStr s) = true)
        /\ ((forall kw, In kw pedal_indicators -> contains_ci kw s = false) ->
            (is_pedal_name (CStr s) = true <->
             5 < PyStr.len s /\ PyStr.any_char PyStr.isalpha s = true)))
  /\ is_pedal_name (CStr "Boss DS-1 Distortion") = true
  /\ is_pedal_name (CStr "Total") = false.
Proof.
  change ["total"; "fmv"; "$20 less"; "label"; "needs"; "for lot"; "payout"]
    with skip_keywords_pedal.
  split.
  { intros v H. destruct v; try reflexivity. discriminate. }
  split.
  { intros s kw Hin Hc. rewrite is_pedal_name_text.
    assert (E : PyStr.any_in skip_keywords_pedal (PyStr.lower s) = true).
    { apply (any_in_ci_true _ pedal_keywords_lowercase). eauto. }
    rewrite E. reflexivity. }
  split.
  { intros s Hskip.
    apply (any_in_ci_false _ pedal_keywords_lowercase) in Hskip.
    rewrite is_pedal_name_text, Hskip. split.
    - intro Hkw. apply (any_in_ci_true _ pedal_indicators_lowercase) in Hkw.
      rewrite Hkw. reflexivity.
    - intro Hkw. apply (any_in_ci_false _ pedal_indicators_lowercase) in Hkw.
      rewrite Hkw, andb_true_iff, Z.ltb_lt. reflexivity. }
  split; vm_compute; reflexivity.
Qed.

(** The guards of the scan pass on text cells only, so [str(col)] is only
    taken of a text. *)
Lemma pedal_guard_text (col : cell) :
  pedal_guard col = true -> exists s, col = CStr s.
Proof.
  unfold pedal_guard. destruct col; simpl; rewrite ?andb_false_r;
    try discriminate.
  intros _. eauto.
Qed.

Lemma person_guard_text (col : cell) :
  is_potential_person col = true -> exists s, col = CStr s.
Proof.
  unfold is_potential_person. destruct col; simpl; rewrite ?andb_false_r;
    try discriminate.
  intros _. eauto.
Qed.

(* ================================================================== *)
(** ** The scan state machine *)

Lemma person_name_truthy (col_a : cell) :
  is_person_name_simple col_a = true -> is_potential_person col_a = true.
Proof.
  intro H. unfold is_potential_person. rewrite H, andb_true_r.
  destruct col_a as [ | | | | s | | ]; try discriminate.
  apply is_person_name_simple_text in H.
  destruct H as ((Hlen & _) & _).
  destruct s as [|c s]; [|reflexivity].
  vm_compute in Hlen. now contradiction Hlen.
Qed.

Lemma has_valid_date_iff (col_b : cell) :
  has_valid_date col_b = true <->
  exists d, col_b = CDate d /\ PyDate.ge d anchor = true.
Proof.
  unfold has_valid_date. split.
  - destruct col_b; simpl; rewrite ?andb_false_r; try discriminate.
    intro H. eauto.
  - intros (d & -> & H). simpl. exact H.
Qed.

Lemma process_row_person (ws : worksheet) (st : scan_state) (row_idx : nat) :
  is_person_name_simple (cell_value ws row_idx 1) = true ->
  exists s,
    cell_value ws row_idx 1 = CStr s
    /\ current_person (process_row ws st row_idx) = Some (PyStr.strip s)
    /\ cleaned_data (process_row ws st row_idx) = cleaned_data st
    /\ (forall d, cell_value ws row_idx 2 = CDate d ->
          PyDate.ge d anchor = true ->
          current_date (process_row ws st row_idx) = Some d
          /\ last_valid_date (process_row ws st row_idx) = d)
    /\ ((forall d, cell_value ws row_idx 2 = CDate d ->
           PyDate.ge d anchor = false) ->
        current_date (process_row ws st row_idx) = Some (last_valid_date st)
        /\ last_valid_date (process_row ws st row_idx) = last_valid_date st).
Proof.
  intro Hname.
  pose proof (person_name_truthy _ Hname) as Hp.
  destruct (person_guard_text _ Hp) as (s & Hs).
  exists s. split; [exact Hs|].
  unfold process_row. rewrite Hp. cbn [andb].
  destruct (has_valid_date (cell_value ws row_idx 2)) eqn:Hd.
  - apply has_valid_date_iff in Hd. destruct Hd as (d & Hb & Hge).
    rewrite Hb, Hs. simpl.
    split; [reflexivity|]. split; [reflexivity|]. split.
    + intros d' E _. inversion E. subst d'. split; reflexivity.
    + intro H. specialize (H d eq_refl). congruence.
  - cbn [negb]. rewrite Hs. simpl.
    split; [reflexivity|]. split; [reflexivity|]. split.
    + intros d E Hge. exfalso.
      assert (has_valid_date (cell_value ws row_idx 2) = true)
        by (apply has_valid_date_iff; eauto).
      congruence.
    + intros _. split; reflexivity.
Qed.

Lemma process_row_keeps_person (ws : worksheet) (st : scan_state)
    (row_idx : nat) :
  current_person st <> None ->
  current_person (process_row ws st row_idx) <> None.
Proof.
  intro H. unfold process_row.
  destruct (is_potential_person (cell_value ws row_idx 1)); cbn [andb].
  - destruct (has_valid_date (cell_value ws row_idx 2)); cbn [negb].
    + destruct (cell_value ws row_idx 2); simpl; trivial; discriminate.
    + simpl. discriminate.
  - simpl. exact H.
Qed.

Lemma scan_keeps_person (ws : worksheet) (later : list nat) :
  forall st,
    current_person st <> None ->
    current_person (fold_left (process_row ws) later st) <> None.
Proof.
  induction later as [|i later IH]; intros st H; simpl; [exact H|].
  apply IH. now apply process_row_keeps_person.
Qed.

(** C7. On a row whose column A cell passes the person-name heuristic, the
    scanner sets [current_person] to that cell, stripped, and appends no
    record; when the column B cell is a date from 2025-07-24 on,
    [current_date] and [last_valid_date] both become that date, and
    otherwise [current_date] becomes [last_valid_date], which stays.  Once
    [current_person] is set, no later row of the scan unsets it. *)
Theorem person_row_commits (ws : worksheet) (st : scan_state) (row_idx : nat) :
  is_person_name_simple (cell_value ws row_idx 1) = true ->
  (exists s,
     cell_value ws row_idx 1 = CStr s
     /\ current_person (process_row ws st row_idx) = Some (PyStr.strip s)
     /\ cleaned_data (process_row ws st row_idx) = cleaned_data st
     /\ (forall d, cell_value ws row_idx 2 = CDate d ->
           PyDate.ge d anchor = true ->
           current_date (process_row ws st row_idx) = Some d
           /\ last_valid_date (process_row ws st row_idx) = d)
     /\ ((forall d, cell_value ws row_idx 2 = CDate d ->
            PyDate.ge d anchor = false) ->
         current_date (process_row ws st row_idx) = Some (last_valid_date st)
         /\ last_valid_date (process_row ws st row_idx) = last_valid_date st))
  /\ (forall st' later,
        current_person st' <> None ->
        current_person (fold_left (process_row ws) later st') <> None).
Proof.
  intro Hname. split.
  - exact (process_row_person ws st row_idx Hname).
  - intros st' later. apply scan_keeps_person.
Qed.

Lemma person_row_commits_witness :
  is_person_name_simple (cell_value tube_screamer_sheet 1 1) = true
  /\ exists s,
       cell_value tube_screamer_sheet 1 1 = CStr s
       /\ current_person (process_row tube_screamer_sheet initial_state 1)
          = Some (PyStr.strip s).
Proof.
  split; [reflexivity|].
  destruct (proj1 (person_row_commits tube_screamer_sheet initial_state 1
                     eq_refl)) as (s & Hs & Hp & _).
  exists s. split; assumption.
Defined.

(* ================================================================== *)
(** ** The calendar *)

Lemma month_day_checked :
  forallb (fun n => month_day_ok true (Z.of_nat n)
                    && month_day_ok false (Z.of_nat n)) (seq 0 365) = true.
Proof. vm_compute. reflexivity. Qed.

Lemma month_day_spec (leapyear : bool) (n : Z) :
  0 <= n < 365 -> month_day_ok leapyear n = true.
Proof.
  intro H. pose proof month_day_checked as C.
  rewrite forallb_forall in C.
  specialize (C (Z.to_nat n)).
  rewrite Z2Nat.id in C by lia.
  assert (Hin : In (Z.to_nat n) (seq 0 365)) by (apply in_seq; lia).
  apply C in Hin. apply andb_true_iff in Hin.
  destruct leapyear; tauto.
Qed.

Lemma year_decomposition (a b c e : Z) :
  0 <= a -> 0 <= b <= 3 -> 0 <= c <= 24 -> 0 <= e <= 3 ->
  PyDate.days_before_year (a * 400 + 1 + b * 100 + c * 4 + e)
  = 146097 * a + 36524 * b + 1461 * c + 365 * e
  /\ PyDate.is_leap (a * 400 + 1 + b * 100 + c * 4 + e)
     = (e =? 3) && (negb (c =? 24) || (b =? 3)).
Proof.
  intros Ha Hb Hc He. split.
  - unfold PyDate.days_before_year.
    replace (a * 400 + 1 + b * 100 + c * 4 + e - 1)
      with (a * 400 + b * 100 + c * 4 + e) by lia.
    assert (Q4 : (a * 400 + b * 100 + c * 4 + e) / 4 = 100 * a + 25 * b + c)
      by (symmetry; apply Z.div_unique with (r := e); lia).
    assert (Q100 : (a * 400 + b * 100 + c * 4 + e) / 100 = 4 * a + b)
      by (symmetry; apply Z.div_unique with (r := c * 4 + e); lia).
    assert (Q400 : (a * 400 + b * 100 + c * 4 + e) / 400 = a)
      by (symmetry; apply Z.div_unique with (r := b * 100 + c * 4 + e); lia).
    rewrite Q4, Q100, Q400. lia.
  - unfold PyDate.is_leap.
    assert (M4 : (a * 400 + 1 + b * 100 + c * 4 + e) mod 4 = (e + 1) mod 4).
    { replace (a * 400 + 1 + b * 100 + c * 4 + e)
        with ((e + 1) + (100 * a + 25 * b + c) * 4) by lia.
      apply Z.mod_add. lia. }
    assert (M100 : (a * 400 + 1 + b * 100 + c * 4 + e) mod 100
                   = (c * 4 + e + 1) mod 100).
    { replace (a * 400 + 1 + b * 100 + c * 4 + e)
        with ((c * 4 + e + 1) + (4 * a + b) * 100) by lia.
      apply Z.mod_add. lia. }
    assert (M400 : (a * 400 + 1 + b * 100 + c * 4 + e) mod 400
                   = (b * 100 + c * 4 + e + 1) mod 400).
    { replace (a * 400 + 1 + b * 100 + c * 4 + e)
        with ((b * 100 + c * 4 + e + 1) + a * 400) by lia.
      apply Z.mod_add. lia. }
    rewrite M4, M100, M400.
    destruct (e =? 3) eqn:E3; [apply Z.eqb_eq in E3 | apply Z.eqb_neq in E3].
    + subst e. change ((3 + 1) mod 4) with 0. cbn [Z.eqb andb].
      destruct (c =? 24) eqn:E24;
        [apply Z.eqb_eq in E24 | apply Z.eqb_neq in E24].
      * subst c. change ((24 * 4 + 3 + 1) mod 100) with 0. cbn [Z.eqb negb orb].
        destruct (b =? 3) eqn:Eb;
          [apply Z.eqb_eq in Eb | apply Z.eqb_neq in Eb].
        -- subst b. reflexivity.
        -- apply Z.eqb_neq. rewrite Z.mod_small by lia. lia.
      * cbn [negb orb].
        assert (N : (c * 4 + 3 + 1) mod 100 <> 0)
          by (rewrite Z.mod_small by lia; lia).
        apply Z.eqb_neq in N. rewrite N. reflexivity.
    + assert (N : (e + 1) mod 4 <> 0)
        by (rewrite Z.mod_small by lia; lia).
      apply Z.eqb_neq in N. rewrite N. reflexivity.
Qed.

Lemma days_in_month_flag (y m : Z) :
  PyDate.days_in_month y m
  = PyDate.DAYS_IN_MONTH m + (if (m =? 2) && PyDate.is_leap y then 1 else 0).
Proof.
  unfold PyDate.days_in_month.
  destruct ((m =? 2) && PyDate.is_leap y) eqn:E; [|lia].
  apply andb_true_iff in E. destruct E as [E _].
  apply Z.eqb_eq in E. subst m. reflexivity.
Qed.

Ltac december :=
  change (PyDate.DAYS_BEFORE_MONTH 12) with 334;
  change (PyDate.DAYS_IN_MONTH 12) with 31;
  change (2 <? 12) with true; change (12 =? 2) with false;
  change (3 =? 3) with true; change (24 =? 24) with true;
  cbn [andb orb negb].

Lemma ord2ymd_spec (n : Z) :
  1 <= n ->
  let '(y, m, d) := PyDate.ord2ymd n in
  PyDate.ymd2ord y m d = n
  /\ 1 <= y /\ 1 <= m <= 12 /\ 1 <= d <= PyDate.days_in_month y m.
Proof.
  intro Hn. unfold PyDate.ord2ymd, PyDate.DI400Y, PyDate.DI100Y, PyDate.DI4Y.
  cbv zeta.
  set (n0 := n - 1).
  set (a := n0 / 146097). set (r1 := n0 mod 146097).
  set (b := r1 / 36524). set (r2 := r1 mod 36524).
  set (c := r2 / 1461). set (r3 := r2 mod 1461).
  set (e := r3 / 365). set (r4 := r3 mod 365).
  assert (H0 : 0 <= n0) by (unfold n0; lia).
  assert (Hn0 : n = n0 + 1) by (unfold n0; lia).
  pose proof (Z.div_mod n0 146097 ltac:(lia)) as D1.
  pose proof (Z.mod_pos_bound n0 146097 ltac:(lia)) as B1.
  pose proof (Z.div_mod r1 36524 ltac:(lia)) as D2.
  pose proof (Z.mod_pos_bound r1 36524 ltac:(lia)) as B2.
  pose proof (Z.div_mod r2 1461 ltac:(lia)) as D3.
  pose proof (Z.mod_pos_bound r2 1461 ltac:(lia)) as B3.
  pose proof (Z.div_mod r3 365 ltac:(lia)) as D4.
  pose proof (Z.mod_pos_bound r3 365 ltac:(lia)) as B4.
  fold a r1 in D1, B1. fold b r2 in D2, B2.
  fold c r3 in D3, B3. fold e r4 in D4, B4.
  assert (Ha : 0 <= a) by (apply Z.div_pos; lia).
  assert (Hb : 0 <= b) by (apply Z.div_pos; lia).
  assert (Hc : 0 <= c) by (apply Z.div_pos; lia).
  assert (He : 0 <= e) by (apply Z.div_pos; lia).
  clearbody a r1 b r2 c r3 e r4 n0.
  destruct (e =? 4) eqn:E4; [apply Z.eqb_eq in E4 | apply Z.eqb_neq in E4].
  - (* the last day of a leap year *)
    cbn [orb].
    assert (Hc' : c <= 23) by lia.
    destruct (year_decomposition a b c 3) as [Hd Hl]; try lia.
    replace (a * 400 + 1 + b * 100 + c * 4 + e - 1)
      with (a * 400 + 1 + b * 100 + c * 4 + 3) by lia.
    assert (Hl' : PyDate.is_leap (a * 400 + 1 + b * 100 + c * 4 + 3) = true).
    { rewrite Hl. replace (c =? 24) with false by (symmetry; apply Z.eqb_neq; lia).
      reflexivity. }
    unfold PyDate.ymd2ord, PyDate.days_before_month.
    rewrite days_in_month_flag, Hd, Hl'. december. lia.
  - destruct (b =? 4) eqn:Eb; [apply Z.eqb_eq in Eb | apply Z.eqb_neq in Eb].
    + (* the last day of a 400-year cycle *)
      cbn [orb].
      destruct (year_decomposition a 3 24 3) as [Hd Hl]; try lia.
      replace (a * 400 + 1 + b * 100 + c * 4 + e - 1)
        with (a * 400 + 1 + 3 * 100 + 24 * 4 + 3) by lia.
      unfold PyDate.ymd2ord, PyDate.days_before_month.
      rewrite days_in_month_flag, Hd, Hl. december. lia.
    + cbn [orb].
      destruct (year_decomposition a b c e) as [Hd Hl]; try lia.
      rewrite <- Hl.
      pose proof (month_day_spec
                    (PyDate.is_leap (a * 400 + 1 + b * 100 + c * 4 + e)) r4 B4)
        as Hmd.
      unfold month_day_ok in Hmd.
      destruct (PyDate.month_day
                  (PyDate.is_leap (a * 400 + 1 + b * 100 + c * 4 + e)) r4)
        as [m d].
      rewrite !andb_true_iff in Hmd. destruct Hmd as [[Hm Hdd] Hsum].
      unfold PyStr.between in Hm, Hdd.
      rewrite andb_true_iff, !Z.leb_le in Hm, Hdd.
      apply Z.eqb_eq in Hsum.
      unfold PyDate.ymd2ord, PyDate.days_before_month.
      rewrite days_in_month_flag, Hd. lia.
Qed.

Lemma days_before_year_mono (y : Z) :
  10000 <= y -> 3652059 <= PyDate.days_before_year y.
Proof.
  intro H. unfold PyDate.days_before_year. cbv zeta.
  pose proof (Z.div_mod (y - 1) 4 ltac:(lia)).
  pose proof (Z.mod_pos_bound (y - 1) 4 ltac:(lia)).
  pose proof (Z.div_mod (y - 1) 100 ltac:(lia)).
  pose proof (Z.mod_pos_bound (y - 1) 100 ltac:(lia)).
  pose proof (Z.div_mod (y - 1) 400 ltac:(lia)).
  pose proof (Z.mod_pos_bound (y - 1) 400 ltac:(lia)).
  lia.
Qed.

Lemma ord2ymd_year_bound (n : Z) :
  1 <= n <= PyDate.MAXORDINAL ->
  let '(y, m, d) := PyDate.ord2ymd n in 1 <= y <= 9999.
Proof.
  intros [H1 H2]. pose proof (ord2ymd_spec n H1) as S.
  destruct (PyDate.ord2ymd n) as [[y m] d].
  destruct S as (Ho & Hy & Hm & Hd).
  split; [exact Hy|].
  destruct (Z_lt_le_dec y 10000) as [L|L]; [lia|].
  exfalso. apply days_before_year_mono in L.
  unfold PyDate.ymd2ord, PyDate.days_before_month, PyDate.MAXORDINAL in *.
  assert (0 <= PyDate.DAYS_BEFORE_MONTH m).
  { unfold PyDate.DAYS_BEFORE_MONTH.
    repeat match goal with |- context [if ?t then _ else _] => destruct t end;
      lia. }
  destruct ((2 <? m) && PyDate.is_leap y); lia.
Qed.

(** *** Reading back what [strftime] writes *)

Lemma digit_value_digit (n : Z) :
  digit_value (PyDate.digit n) = Some (n mod 10).
Proof.
  pose proof (Z.mod_pos_bound n 10 ltac:(lia)) as B.
  unfold PyDate.digit.
  assert (C : n mod 10 = 0 \/ n mod 10 = 1 \/ n mod 10 = 2 \/ n mod 10 = 3
              \/ n mod 10 = 4 \/ n mod 10 = 5 \/ n mod 10 = 6
              \/ n mod 10 = 7 \/ n mod 10 = 8 \/ n mod 10 = 9) by lia.
  repeat (destruct C as [C|C]; [rewrite C; reflexivity|]).
  rewrite C. reflexivity.
Qed.

Lemma number2_digits (x y : Z) :
  number2 (PyDate.digit x) (PyDate.digit y)
  = Some (10 * (x mod 10) + y mod 10).
Proof. unfold number2. rewrite !digit_value_digit. reflexivity. Qed.

Lemma read_ymd_strftime (dt : datetime) :
  0 <= year dt <= 9999 -> 0 <= month dt <= 99 -> 0 <= day dt <= 99 ->
  read_ymd (PyDate.strftime dt) = Some (year dt, month dt, day dt).
Proof.
  intros Hy Hm Hd.
  unfold PyDate.strftime, PyDate.year_text.
  replace (year dt <? 10000) with true by (symmetry; apply Z.ltb_lt; lia).
  unfold PyDate.pad4, PyDate.pad2. cbn [append read_ymd].
  rewrite !number2_digits.
  assert (E1 : 100 * (10 * ((year dt / 1000) mod 10) + (year dt / 100) mod 10)
               + (10 * ((year dt / 10) mod 10) + year dt mod 10) = year dt).
  { pose proof (Z.div_mod (year dt) 10 ltac:(lia)).
    pose proof (Z.mod_pos_bound (year dt) 10 ltac:(lia)).
    pose proof (Z.div_mod (year dt / 10) 10 ltac:(lia)).
    pose proof (Z.mod_pos_bound (year dt / 10) 10 ltac:(lia)).
    pose proof (Z.div_mod (year dt / 100) 10 ltac:(lia)).
    pose proof (Z.mod_pos_bound (year dt / 100) 10 ltac:(lia)).
    pose proof (Z.div_mod (year dt / 1000) 10 ltac:(lia)).
    pose proof (Z.mod_pos_bound (year dt / 1000) 10 ltac:(lia)).
    assert (year dt / 100 = year dt / 10 / 10)
      by (rewrite Z.div_div by lia; reflexivity).
    assert (year dt / 1000 = year dt / 100 / 10)
      by (rewrite Z.div_div by lia; reflexivity).
    assert (year dt / 1000 / 10 = 0)
      by (rewrite Z.div_div by lia; apply Z.div_small; lia).
    lia. }
  assert (E2 : forall k, 0 <= k <= 99 -> 10 * ((k / 10) mod 10) + k mod 10 = k).
  { intros k Hk.
    pose proof (Z.div_mod k 10 ltac:(lia)).
    pose proof (Z.mod_pos_bound k 10 ltac:(lia)).
    assert (0 <= k / 10 < 10)
      by (split; [apply Z.div_pos; lia | apply Z.div_lt_upper_bound; lia]).
    rewrite (Z.mod_small (k / 10)) by lia. lia. }
  rewrite E1, (E2 _ Hm), (E2 _ Hd). reflexivity.
Qed.

Lemma days_in_month_le_31 (y m : Z) : PyDate.days_in_month y m <= 31.
Proof.
  unfold PyDate.days_in_month, PyDate.DAYS_IN_MONTH.
  repeat match goal with |- context [if ?t then _ else _] => destruct t end;
    lia.
Qed.

Lemma valid_datetime_fields (d : datetime) :
  PyDate.valid_datetime d = true ->
  1 <= year d <= 9999 /\ 1 <= month d <= 12
  /\ 1 <= day d <= PyDate.days_in_month (year d) (month d).
Proof.
  unfold PyDate.valid_datetime, PyStr.between.
  rewrite !andb_true_iff, !Z.leb_le. tauto.
Qed.

Lemma read_ymd_valid (d : datetime) :
  PyDate.valid_datetime d = true ->
  read_ymd (PyDate.strftime d) = Some (year d, month d, day d).
Proof.
  intro H. apply valid_datetime_fields in H.
  pose proof (days_in_month_le_31 (year d) (month d)).
  apply read_ymd_strftime; lia.
Qed.

(** *** The days of a year *)

Ltac div_step y k :=
  pose proof (Z.div_mod y k ltac:(lia));
  pose proof (Z.mod_pos_bound y k ltac:(lia));
  pose proof (Z.div_mod (y - 1) k ltac:(lia));
  pose proof (Z.mod_pos_bound (y - 1) k ltac:(lia)).

Lemma days_before_year_succ (y : Z) :
  1 <= y ->
  PyDate.days_before_year (y + 1)
  = PyDate.days_before_year y + 365 + (if PyDate.is_leap y then 1 else 0).
Proof.
  intro Hy. unfold PyDate.days_before_year, PyDate.is_leap. cbv zeta.
  replace (y + 1 - 1) with y by lia.
  assert (A4 : y / 4 = (y - 1) / 4 + (if y mod 4 =? 0 then 1 else 0)).
  { div_step y 4. destruct (y mod 4 =? 0) eqn:E;
      [apply Z.eqb_eq in E | apply Z.eqb_neq in E]; lia. }
  assert (A100 : y / 100 = (y - 1) / 100 + (if y mod 100 =? 0 then 1 else 0)).
  { div_step y 100. destruct (y mod 100 =? 0) eqn:E;
      [apply Z.eqb_eq in E | apply Z.eqb_neq in E]; lia. }
  assert (A400 : y / 400 = (y - 1) / 400 + (if y mod 400 =? 0 then 1 else 0)).
  { div_step y 400. destruct (y mod 400 =? 0) eqn:E;
      [apply Z.eqb_eq in E | apply Z.eqb_neq in E]; lia. }
  assert (I1 : y mod 400 = 0 -> y mod 100 = 0).
  { intro E. pose proof (Z.div_mod y 400 ltac:(lia)).
    pose proof (Z.div_mod y 100 ltac:(lia)).
    pose proof (Z.mod_pos_bound y 100 ltac:(lia)). lia. }
  assert (I2 : y mod 100 = 0 -> y mod 4 = 0).
  { intro E. pose proof (Z.div_mod y 100 ltac:(lia)).
    pose proof (Z.div_mod y 4 ltac:(lia)).
    pose proof (Z.mod_pos_bound y 4 ltac:(lia)). lia. }
  rewrite A4, A100, A400.
  destruct (Z.eqb_spec (y mod 4) 0), (Z.eqb_spec (y mod 100) 0),
    (Z.eqb_spec (y mod 400) 0);
    cbn [negb orb andb]; cbv iota; try lia; exfalso; tauto.
Qed.

Lemma days_before_year_le (y z : Z) :
  1 <= y <= z -> PyDate.days_before_year y <= PyDate.days_before_year z.
Proof.
  intros [H1 H2]. unfold PyDate.days_before_year. cbv zeta.
  assert (A : (y - 1) / 4 <= (z - 1) / 4)
    by (apply Z.div_le_mono; lia).
  assert (B : (y - 1) / 400 <= (z - 1) / 400)
    by (apply Z.div_le_mono; lia).
  (* the centuries skipped between y and z are at most a quarter of the
     fourth years *)
  pose proof (Z.div_mod (y - 1) 4 ltac:(lia)).
  pose proof (Z.mod_pos_bound (y - 1) 4 ltac:(lia)).
  pose proof (Z.div_mod (z - 1) 4 ltac:(lia)).
  pose proof (Z.mod_pos_bound (z - 1) 4 ltac:(lia)).
  pose proof (Z.div_mod (y - 1) 100 ltac:(lia)).
  pose proof (Z.mod_pos_bound (y - 1) 100 ltac:(lia)).
  pose proof (Z.div_mod (z - 1) 100 ltac:(lia)).
  pose proof (Z.mod_pos_bound (z - 1) 100 ltac:(lia)).
  lia.
Qed.

Ltac month_tables :=
  repeat match goal with
         | |- context [PyDate.DAYS_BEFORE_MONTH ?k] =>
             let v := eval vm_compute in (PyDate.DAYS_BEFORE_MONTH k) in
             change (PyDate.DAYS_BEFORE_MONTH k) with v
         | |- context [PyDate.DAYS_IN_MONTH ?k] =>
             let v := eval vm_compute in (PyDate.DAYS_IN_MONTH k) in
             change (PyDate.DAYS_IN_MONTH k) with v
         | |- context [Z.ltb 2 ?k] =>
             let v := eval vm_compute in (Z.ltb 2 k) in
             change (Z.ltb 2 k) with v
         | |- context [Z.eqb ?k 2] =>
             let v := eval vm_compute in (Z.eqb k 2) in
             change (Z.eqb k 2) with v
         end;
  cbn [andb]; cbv iota.

Lemma days_in_year (y m d : Z) :
  1 <= m <= 12 -> 1 <= d <= PyDate.days_in_month y m ->
  1 <= PyDate.days_before_month y m + d
    <= 365 + (if PyDate.is_leap y then 1 else 0).
Proof.
  intros Hm.
  unfold PyDate.days_before_month, PyDate.days_in_month.
  assert (C : m = 1 \/ m = 2 \/ m = 3 \/ m = 4 \/ m = 5 \/ m = 6 \/ m = 7
              \/ m = 8 \/ m = 9 \/ m = 10 \/ m = 11 \/ m = 12) by lia.
  destruct (PyDate.is_leap y);
    destruct C as [C|[C|[C|[C|[C|[C|[C|[C|[C|[C|[C|C]]]]]]]]]]]; subst m;
    month_tables; lia.
Qed.

Lemma toordinal_within_year (y m d : Z) :
  1 <= y -> 1 <= m <= 12 -> 1 <= d <= PyDate.days_in_month y m ->
  PyDate.days_before_year y < PyDate.ymd2ord y m d
    <= PyDate.days_before_year (y + 1).
Proof.
  intros Hy Hm Hd. rewrite (days_before_year_succ y Hy).
  pose proof (days_in_year y m d Hm Hd). unfold PyDate.ymd2ord. lia.
Qed.

(** Two valid days are in the order of their ordinals, year first. *)
Lemma ymd2ord_year_le (y m d y' m' d' : Z) :
  1 <= y -> 1 <= m <= 12 -> 1 <= d <= PyDate.days_in_month y m ->
  1 <= y' -> 1 <= m' <= 12 -> 1 <= d' <= PyDate.days_in_month y' m' ->
  PyDate.ymd2ord y m d <= PyDate.ymd2ord y' m' d' -> y <= y'.
Proof.
  intros Hy Hm Hd Hy' Hm' Hd' Hle.
  destruct (Z_le_gt_dec y y') as [L|G]; [exact L|]. exfalso.
  pose proof (toordinal_within_year y m d Hy Hm Hd).
  pose proof (toordinal_within_year y' m' d' Hy' Hm' Hd').
  pose proof (days_before_year_le (y' + 1) y ltac:(lia)). lia.
Qed.

(** *** A sum of 365 days *)

Lemma add_days_spec (d e : datetime) (n : Z) :
  PyDate.add_days d n = Ok e ->
  PyDate.toordinal e = PyDate.toordinal d + n
  /\ 1 <= year e <= 9999 /\ 1 <= month e <= 12
  /\ 1 <= day e <= PyDate.days_in_month (year e) (month e).
Proof.
  unfold PyDate.add_days.
  destruct ((0 <? PyDate.toordinal d + n)
            && (PyDate.toordinal d + n <=? PyDate.MAXORDINAL)) eqn:R;
    [|discriminate].
  apply andb_true_iff in R. destruct R as [R1 R2].
  apply Z.ltb_lt in R1. apply Z.leb_le in R2.
  pose proof (ord2ymd_spec (PyDate.toordinal d + n) ltac:(lia)) as S.
  pose proof (ord2ymd_year_bound (PyDate.toordinal d + n) ltac:(lia)) as Y.
  destruct (PyDate.ord2ymd (PyDate.toordinal d + n)) as [[y m] dd].
  intro E. inversion E. subst e. unfold PyDate.toordinal. simpl.
  tauto.
Qed.

Lemma shift_days_spec (d : datetime) (n : Z) :
  1 <= PyDate.toordinal d + n ->
  PyDate.toordinal (PyDate.shift_days d n) = PyDate.toordinal d + n
  /\ 1 <= year (PyDate.shift_days d n)
  /\ 1 <= month (PyDate.shift_days d n) <= 12
  /\ 1 <= day (PyDate.shift_days d n)
     <= PyDate.days_in_month (year (PyDate.shift_days d n))
          (month (PyDate.shift_days d n)).
Proof.
  intro H. unfold PyDate.shift_days.
  pose proof (ord2ymd_spec (PyDate.toordinal d + n) H) as S.
  destruct (PyDate.ord2ymd (PyDate.toordinal d + n)) as [[y m] dd].
  unfold PyDate.toordinal at 1. simpl. tauto.
Qed.

Lemma toordinal_range (d : datetime) :
  PyDate.valid_datetime d = true ->
  1 <= PyDate.toordinal d <= PyDate.MAXORDINAL.
Proof.
  intro H. apply valid_datetime_fields in H. destruct H as (Hy & Hm & Hd).
  pose proof (toordinal_within_year (year d) (month d) (day d)
                ltac:(lia) Hm Hd) as W.
  pose proof (days_before_year_le 1 (year d) ltac:(lia)) as L.
  pose proof (days_before_year_le (year d + 1) 10000 ltac:(lia)) as U.
  change (PyDate.days_before_year 1) with 0 in L.
  change (PyDate.days_before_year 10000) with 3652059 in U.
  unfold PyDate.toordinal, PyDate.MAXORDINAL. lia.
Qed.

(** The day 365 days after a valid date falls in the same year or in the
    next. *)
Lemma shift_365_year (d : datetime) :
  PyDate.valid_datetime d = true ->
  year d <= year (PyDate.shift_days d 365) <= year d + 1.
Proof.
  intro Hv. pose proof (toordinal_range d Hv) as R.
  destruct (shift_days_spec d 365 ltac:(lia)) as (Ho & Hy & Hm & Hd).
  apply valid_datetime_fields in Hv. destruct Hv as (Vy & Vm & Vd).
  revert Ho Hy Hm Hd. generalize (PyDate.shift_days d 365).
  intros e Ho Hy Hm Hd. unfold PyDate.toordinal in Ho.
  split.
  - apply (ymd2ord_year_le (year d) (month d) (day d)
             (year e) (month e) (day e)); lia.
  - destruct (Z_le_gt_dec (year e) (year d + 1)) as [L|G]; [exact L|].
    exfalso.
    pose proof (toordinal_within_year (year d) (month d) (day d)
                  ltac:(lia) Vm Vd) as Wd.
    pose proof (toordinal_within_year (year e) (month e) (day e) Hy Hm Hd)
      as We.
    pose proof (days_before_year_succ (year d + 1) ltac:(lia)) as S.
    pose proof (days_before_year_le (year d + 1 + 1) (year e) ltac:(lia)).
    destruct (PyDate.is_leap (year d + 1)); lia.
Qed.

Lemma ge_year (a b : datetime) : PyDate.ge a b = true -> year b <= year a.
Proof.
  unfold PyDate.ge, PyDate.cmp, PyDate.fields. simpl.
  destruct (year a ?= year b) eqn:E.
  - apply Z.compare_eq_iff in E. intros _. lia.
  - discriminate.
  - apply Z.compare_gt_iff in E. intros _. lia.
Qed.

Lemma year_ge (a b : datetime) : year b < year a -> PyDate.ge a b = true.
Proof.
  intro H. unfold PyDate.ge, PyDate.cmp, PyDate.fields. simpl.
  apply Z.compare_gt_iff in H. rewrite H. reflexivity.
Qed.

Lemma Timestamp_add_ok (u : resolution) (x e : datetime) (n : Z) :
  Timestamp_add u x n = Ok e ->
  e = PyDate.shift_days x n /\ in_bounds u e = true.
Proof.
  unfold Timestamp_add.
  destruct (in_bounds u (PyDate.shift_days x n)) eqn:B; [|discriminate].
  intro E. inversion E. subst e. now split.
Qed.

Lemma in_bounds_ns_year (e : datetime) :
  in_bounds ns e = true -> year e <= 2262.
Proof.
  simpl. rewrite andb_true_iff. intros [_ H].
  apply ge_year in H. exact H.
Qed.

(* ================================================================== *)
(** ** The records of the scan *)

Lemma nth_forallb {A : Type} (p : A -> bool) (l : list A) (default : A) :
  forallb p l = true -> p default = true ->
  forall n, p (nth n l default) = true.
Proof.
  intros Hl Hd. induction l as [|x l IH]; intro n.
  - destruct n; exact Hd.
  - simpl in Hl. apply andb_true_iff in Hl. destruct Hl as [Hx Hl].
    destruct n; [exact Hx | now apply IH].
Qed.

Lemma cell_value_wf (ws : worksheet) (r c : nat) :
  sheet_wf ws = true -> cell_wf (cell_value ws r c) = true.
Proof.
  intro H. unfold cell_value.
  apply nth_forallb; [|reflexivity].
  now apply (nth_forallb (forallb cell_wf)).
Qed.

Lemma inject_Z_in_range (k : Z) :
  0 < k < 10000 -> price_in_range (FFinite (inject_Z k)).
Proof.
  intros [H1 H2]. simpl. unfold Qlt, inject_Z. simpl. lia.
Qed.

Lemma recovered_price_in_range (col : cell) :
  cell_wf col = true -> is_valid_price col = true ->
  price_in_range (py_float (convert_date_to_price col)).
Proof.
  destruct col as [ | b | z | f | s | d | o]; simpl; try discriminate.
  - destruct b; [|discriminate]. intros _ _. split; reflexivity.
  - rewrite andb_true_iff, !Z.ltb_lt. intros _ H.
    now apply (inject_Z_in_range z).
  - destruct f as [q | neg | ]; simpl.
    + rewrite andb_true_iff, !Qltb_lt. tauto.
    + destruct neg; discriminate.
    + discriminate.
  - intros Hv. destruct (PyDate.lt d anchor); [|discriminate]. intros _.
    apply valid_datetime_fields in Hv.
    pose proof (days_in_month_le_31 (year d) (month d)).
    apply (inject_Z_in_range (day d)). lia.
Qed.

Lemma price_from_resolved (col : cell) (p : cell) :
  price_from col None = Some p ->
  is_valid_price col = true /\ p = convert_date_to_price col.
Proof.
  unfold price_from. destruct (is_valid_price col); [|discriminate].
  destruct (is_date_value (convert_date_to_price col)); [discriminate|].
  intro E. inversion E. auto.
Qed.

Section Row.

Variables (person : option string) (cd : datetime).
Hypothesis cd_valid : PyDate.valid_datetime cd = true.

Lemma emit_ok (pedal_name : string) (col : cell) :
  cell_wf col = true -> is_valid_price col = true ->
  Forall cand_ok
    (emit person cd pedal_name (Some (convert_date_to_price col))).
Proof.
  intros Hw Hv. unfold emit.
  destruct (is_number (convert_date_to_price col)); [|constructor].
  constructor; [|constructor].
  split; [exact cd_valid | now apply recovered_price_in_range].
Qed.

Lemma group2_ok (name primary : cell) :
  cell_wf primary = true -> Forall cand_ok (group2 person cd name primary).
Proof.
  intro Hp. unfold group2. destruct (pedal_guard name); [|constructor].
  destruct (price_from primary None) as [p|] eqn:E; [|constructor].
  apply price_from_resolved in E. destruct E as [Hv ->].
  now apply emit_ok.
Qed.

Lemma group3_ok (name primary secondary : cell) :
  cell_wf primary = true -> cell_wf secondary = true ->
  Forall cand_ok (group3 person cd name primary secondary).
Proof.
  intros Hp Hs. unfold group3. destruct (pedal_guard name); [|constructor].
  destruct (price_from primary None) as [p|] eqn:E; simpl.
  - apply price_from_resolved in E. destruct E as [Hv ->].
    now apply emit_ok.
  - destruct (price_from secondary None) as [p|] eqn:E2; [|constructor].
    apply price_from_resolved in E2. destruct E2 as [Hv ->].
    now apply emit_ok.
Qed.

Lemma group_h_ok (col_a col_d col_h : cell) :
  cell_wf col_h = true -> Forall cand_ok (group_h person cd col_a col_d col_h).
Proof.
  intro Hh. unfold group_h.
  destruct (truthy col_h && is_valid_price col_h) eqn:G; [|constructor].
  apply andb_true_iff in G. destruct G as [_ Hv].
  destruct (negb (is_date_value (convert_date_to_price col_h))
            && is_number (convert_date_to_price col_h)); [|constructor].
  assert (R : forall n,
             Forall cand_ok
               (if PyStr.nonempty n
                then [Cand.mk (person_or_unknown person) n
                        (py_float (convert_date_to_price col_h)) cd]
                else [])).
  { intro n. destruct (PyStr.nonempty n); [|constructor].
    constructor; [|constructor].
    split; [exact cd_valid | now apply recovered_price_in_range]. }
  destruct (pedal_guard col_a); [apply R|].
  destruct (pedal_guard col_d); [apply R | constructor].
Qed.

Lemma extract_row_ok (col_a col_b col_c col_d col_e col_f col_g col_h : cell) :
  cell_wf col_b = true -> cell_wf col_c = true -> cell_wf col_e = true ->
  cell_wf col_f = true -> cell_wf col_g = true -> cell_wf col_h = true ->
  Forall cand_ok
    (extract_row person cd col_a col_b col_c col_d col_e col_f col_g col_h).
Proof.
  intros. unfold extract_row.
  repeat (apply Forall_app; split);
    auto using group3_ok, group2_ok, group_h_ok.
Qed.

End Row.

Lemma initial_state_ok : state_ok initial_state.
Proof.
  split; [constructor|]. split; [reflexivity|]. discriminate.
Qed.

Lemma process_row_ok (ws : worksheet) (st : scan_state) (row_idx : nat) :
  sheet_wf ws = true -> state_ok st -> state_ok (process_row ws st row_idx).
Proof.
  intros Hws (Hdata & Hlast & Hcur). unfold process_row.
  destruct (is_potential_person (cell_value ws row_idx 1)); cbn [andb].
  - destruct (has_valid_date (cell_value ws row_idx 2)) eqn:Hd; cbn [negb].
    + pose proof (cell_value_wf ws row_idx 2 Hws) as Hb.
      destruct (cell_value ws row_idx 2) as [ | | | | | d | ];
        try (split; [|split]; assumption).
      simpl in Hb. split; [|split]; simpl; trivial.
      intros d' E. inversion E. now subst d'.
    + split; [|split]; simpl; trivial.
      intros d' E. inversion E. now subst d'.
  - assert (Hcd : PyDate.valid_datetime
                    match current_date st with
                    | Some d => d
                    | None => last_valid_date st
                    end = true).
    { destruct (current_date st) as [d|]; [now apply Hcur | exact Hlast]. }
    split; [|split]; simpl; trivial.
    + apply Forall_app. split; [exact Hdata|].
      apply extract_row_ok; trivial; now apply cell_value_wf.
    + intros d E. inversion E. subst d. exact Hcd.
Qed.

Lemma scan_from_ok (ws : worksheet) (idxs : list nat) :
  sheet_wf ws = true ->
  forall st, state_ok st -> state_ok (fold_left (process_row ws) idxs st).
Proof.
  intro Hws. induction idxs as [|i idxs IH]; intros st H; simpl; [exact H|].
  apply IH. now apply process_row_ok.
Qed.

Lemma scan_ok (ws : worksheet) : sheet_wf ws = true -> state_ok (scan ws).
Proof. intro H. apply scan_from_ok; [exact H | exact initial_state_ok]. Qed.

(* ================================================================== *)
(** ** The assembled records *)

Lemma DataFrame_of_ok (data : list Cand.t) (dates : list datetime) :
  getitem_date (DataFrame_of data) "date" = Ok dates ->
  data <> [] /\ rows (DataFrame_of data) = data /\ dates = map Cand.date data.
Proof.
  destruct data as [|c data]; simpl.
  - discriminate.
  - unfold getitem_date. simpl. intro E. inversion E.
    split; [discriminate | split; reflexivity].
Qed.

Lemma assemble_In (f : datetime -> result datetime) (rs : list Cand.t) :
  forall exps r,
    mapM f (map Cand.date rs) = Ok exps ->
    In r (assemble rs exps) ->
    exists c e,
      In c rs /\ f (Cand.date c) = Ok e
      /\ r = Out.mk (Cand.pedal_name c) (Cand.price c)
               (PyDate.strftime (Cand.date c)) (PyDate.strftime e).
Proof.
  induction rs as [|c rs IH]; intros exps r HM Hin.
  - simpl in HM. inversion HM. subst exps. contradiction.
  - simpl in HM.
    destruct (f (Cand.date c)) as [e|x] eqn:Ee; [|discriminate].
    simpl in HM.
    destruct (mapM f (map Cand.date rs)) as [es|x] eqn:Em; [|discriminate].
    simpl in HM. inversion HM. subst exps.
    simpl in Hin. destruct Hin as [Hr | Hin].
    + exists c, e. split; [now left | split; [exact Ee | now symmetry]].
    + destruct (IH es r eq_refl Hin) as (c' & e' & Hc & He & Hr).
      exists c', e'. split; [now right | split; assumption].
Qed.

(** What a returned frame is made of: the column was typed [datetime64]
    and every sum stayed in range. *)
Lemma clean_spreadsheet_Ok (u : resolution) (ws : worksheet)
    (out : list Out.t) :
  clean_spreadsheet u ws = Ok out ->
  cleaned_data (scan ws) <> []
  /\ exists exps,
       mapM (fun x => Timestamp_add u x 365)
         (map Cand.date (cleaned_data (scan ws))) = Ok exps
       /\ out = assemble (cleaned_data (scan ws)) exps.
Proof.
  unfold clean_spreadsheet. intro H.
  destruct (getitem_date (DataFrame_of (cleaned_data (scan ws))) "date")
    as [dates|x] eqn:Eg; [|discriminate].
  apply DataFrame_of_ok in Eg. destruct Eg as (Hne & Hrows & ->).
  split; [exact Hne|].
  simpl in H. rewrite Hrows in H.
  destruct (date_dtype u (map Cand.date (cleaned_data (scan ws)))).
  - destruct (mapM (fun x => Timestamp_add u x 365)
                (map Cand.date (cleaned_data (scan ws)))) as [exps|x] eqn:Em;
      [|discriminate].
    simpl in H. inversion H. exists exps. now split.
  - destruct (mapM (fun x => PyDate.add_days x 365)
                (map Cand.date (cleaned_data (scan ws)))); discriminate.
Qed.

Lemma clean_spreadsheet_In (u : resolution) (ws : worksheet)
    (out : list Out.t) (r : Out.t) :
  clean_spreadsheet u ws = Ok out -> In r out ->
  exists c e,
    In c (cleaned_data (scan ws)) /\ Timestamp_add u (Cand.date c) 365 = Ok e
    /\ r = Out.mk (Cand.pedal_name c) (Cand.price c)
             (PyDate.strftime (Cand.date c)) (PyDate.strftime e).
Proof.
  intros H Hin.
  destruct (clean_spreadsheet_Ok u ws out H) as (_ & exps & Hm & ->).
  exact (assemble_In (fun x => Timestamp_add u x 365) _ exps r Hm Hin).
Qed.

(** C8, as it holds.  Every record that [clean_spreadsheet] returns
    carries as [date] the date of its scan entry, a text of the form
    YYYY-MM-DD, and as [expiration_date] the text of the calendar day
    exactly 365 days later, written year-month-day.  That text has the form
    YYYY-MM-DD whenever the day falls in a year up to 9999, which it does
    for every sale date up to 9998-12-31 and for every date a nanosecond
    frame holds; the day never falls after year 10000. *)
Theorem expiration_is_365_days_later
    (u : resolution) (ws : worksheet) (out : list Out.t) (r : Out.t) :
  sheet_wf ws = true ->
  clean_spreadsheet u ws = Ok out ->
  In r out ->
  exists c y' m' d',
    In c (cleaned_data (scan ws))
    /\ PyDate.valid_datetime (Cand.date c) = true
    /\ read_ymd (Out.date r)
       = Some (year (Cand.date c), month (Cand.date c), day (Cand.date c))
    /\ (1 <= y' <= 10000 /\ 1 <= m' <= 12
        /\ 1 <= d' <= PyDate.days_in_month y' m')
    /\ PyDate.ymd2ord y' m' d' = PyDate.toordinal (Cand.date c) + 365
    /\ Out.expiration_date r
       = PyDate.year_text y' ++ "-" ++ PyDate.pad2 m' ++ "-" ++ PyDate.pad2 d'
    /\ (y' <= 9999 -> read_ymd (Out.expiration_date r) = Some (y', m', d'))
    /\ (year (Cand.date c) <= 9998 -> y' <= 9999)
    /\ (u = ns -> y' <= 9999).
Proof.
  intros Hws Hout Hin.
  destruct (clean_spreadsheet_In u ws out r Hout Hin)
    as (c & e & Hc & He & ->).
  destruct (scan_ok ws Hws) as (Hdata & _).
  rewrite Forall_forall in Hdata. destruct (Hdata c Hc) as [Hv _].
  apply Timestamp_add_ok in He. destruct He as [-> Hb].
  pose proof (toordinal_range _ Hv) as R.
  destruct (shift_days_spec (Cand.date c) 365 ltac:(lia))
    as (Ho & Hy & Hm & Hd).
  pose proof (shift_365_year _ Hv) as Hyear.
  pose proof (valid_datetime_fields _ Hv) as (Vy & _).
  revert Hb Ho Hy Hm Hd Hyear.
  generalize (PyDate.shift_days (Cand.date c) 365).
  intros e Hb Ho Hy Hm Hd Hyear.
  exists c, (year e), (month e), (day e). simpl.
  split; [exact Hc|]. split; [exact Hv|].
  split; [now apply read_ymd_valid|].
  split; [lia|].
  split; [exact Ho|].
  split; [reflexivity|].
  split.
  { intro H9. pose proof (days_in_month_le_31 (year e) (month e)).
    apply (read_ymd_strftime e); lia. }
  split; [lia|].
  intros ->. apply in_bounds_ns_year in Hb. lia.
Qed.

Lemma expiration_is_365_days_later_witness :
  exists c y' m' d',
    In c (cleaned_data (scan tube_screamer_sheet))
    /\ PyDate.valid_datetime (Cand.date c) = true
    /\ read_ymd "2025-07-25"
       = Some (year (Cand.date c), month (Cand.date c), day (Cand.date c))
    /\ (1 <= y' <= 10000 /\ 1 <= m' <= 12
        /\ 1 <= d' <= PyDate.days_in_month y' m')
    /\ PyDate.ymd2ord y' m' d' = PyDate.toordinal (Cand.date c) + 365
    /\ "2026-07-25"
       = PyDate.year_text y' ++ "-" ++ PyDate.pad2 m' ++ "-" ++ PyDate.pad2 d'
    /\ (y' <= 9999 -> read_ymd "2026-07-25" = Some (y', m', d'))
    /\ (year (Cand.date c) <= 9998 -> y' <= 9999)
    /\ (ns = ns -> y' <= 9999).
Proof.
  exact (expiration_is_365_days_later ns tube_screamer_sheet
           [Out.mk "Tube Screamer" (FFinite (120 # 1))
              "2025-07-25" "2026-07-25"]
           (Out.mk "Tube Screamer" (FFinite (120 # 1))
              "2025-07-25" "2026-07-25")
           eq_refl eq_refl (or_introl eq_refl)).
Defined.

(** C8, as the claim words it, fails where pandas keeps microseconds: on
    a sheet with a sale dated 9999-01-01 the record comes back with the
    expiration date 365 days later, the text 10000-01-01, which is not of
    the form YYYY-MM-DD. *)
Lemma expiration_year_10000_counterexample :
  sheet_wf year_9999_sheet = true
  /\ clean_spreadsheet us year_9999_sheet
     = Ok [Out.mk "Tube Screamer" (FFinite (120 # 1))
             "9999-01-01" "10000-01-01"]
  /\ read_ymd "10000-01-01" = None.
Proof. repeat split; vm_compute; reflexivity. Qed.

(** C10. On a sheet whose dates are valid, every record of the scan, and
    so every record returned, has a price strictly between 0 and 10000;
    and a price recovered from a date earlier than the anchor is the day of
    the month, between 1 and 31. *)
Theorem prices_in_range (ws : worksheet) :
  sheet_wf ws = true ->
  (forall c, In c (cleaned_data (scan ws)) -> price_in_range (Cand.price c))
  /\ (forall u out r, clean_spreadsheet u ws = Ok out -> In r out ->
        price_in_range (Out.price r))
  /\ (forall d, PyDate.valid_datetime d = true ->
        is_valid_price (CDate d) = true ->
        convert_date_to_price (CDate d) = CInt (day d) /\ 1 <= day d <= 31).
Proof.
  intro Hws.
  destruct (scan_ok ws Hws) as (Hdata & _). rewrite Forall_forall in Hdata.
  split; [intros c Hc; now apply Hdata|].
  split.
  - intros u out r Hout Hin.
    destruct (clean_spreadsheet_In u ws out r Hout Hin)
      as (c & e & Hc & _ & ->).
    simpl. now apply Hdata.
  - intros d Hv Hp. simpl in *.
    destruct (PyDate.lt d anchor); [|discriminate].
    split; [reflexivity|].
    apply valid_datetime_fields in Hv.
    pose proof (days_in_month_le_31 (year d) (month d)). lia.
Qed.

Lemma prices_in_range_witness :
  sheet_wf tube_screamer_sheet = true
  /\ forall c, In c (cleaned_data (scan tube_screamer_sheet)) ->
       price_in_range (Cand.price c).
Proof.
  split; [reflexivity|].
  exact (proj1 (prices_in_range tube_screamer_sheet eq_refl)).
Defined.

(** C2. On the sheet with the rows ("Mike Jones", 2025-07-25) and
    ("Tube Screamer", 120, empty), [clean_spreadsheet] returns one record:
    Tube Screamer, 120.0, "2025-07-25", "2026-07-25". *)
Theorem tube_screamer_end_to_end :
  forall u,
    clean_spreadsheet u tube_screamer_sheet
    = Ok [Out.mk "Tube Screamer" (FFinite (120 # 1))
            "2025-07-25" "2026-07-25"].
Proof. intros []; vm_compute; reflexivity. Qed.

(** C1 on the code.  When the scan appends no record the frame has no
    column, so [df['date']] raises [KeyError] and [clean_spreadsheet]
    returns nothing: so it is on the empty sheet and on a sheet that holds
    a summary line only. *)
Theorem empty_result_raises :
  (forall u ws, cleaned_data (scan ws) = [] ->
     clean_spreadsheet u ws = Raise (KeyError "date"))
  /\ cleaned_data (scan total_sheet) = []
  /\ (forall u, clean_spreadsheet u total_sheet = Raise (KeyError "date"))
  /\ (forall u, clean_spreadsheet u [] = Raise (KeyError "date")).
Proof.
  split.
  { intros u ws H. unfold clean_spreadsheet. rewrite H. reflexivity. }
  split; [vm_compute; reflexivity|].
  split; intros []; vm_compute; reflexivity.
Qed.

(* ================================================================== *)
(** ** The row extractor *)

Lemma price_from_valid (col : cell) (price : option cell) :
  is_valid_price col = true ->
  price_from col price = Some (convert_date_to_price col).
Proof.
  intro H. unfold price_from.
  destruct (valid_price_converts col H) as [Hd _]. now rewrite H, Hd.
Qed.

Lemma price_from_invalid (col : cell) (price : option cell) :
  is_valid_price col = false -> price_from col price = price.
Proof. intro H. unfold price_from. now rewrite H. Qed.

Lemma emit_valid (person : option string) (cd : datetime)
    (name : cell) (col : cell) :
  is_valid_price col = true ->
  emit person cd (PyStr.strip (py_str name)) (Some (convert_date_to_price col))
  = [record_of person cd name col].
Proof.
  intro H. unfold emit.
  destruct (valid_price_converts col H) as [_ Hn]. now rewrite Hn.
Qed.

Lemma group3_resolved (person : option string) (cd : datetime)
    (name primary secondary : cell) :
  group3 person cd name primary secondary =
  if pedal_guard name
  then
    if is_valid_price primary then [record_of person cd name primary]
    else if is_valid_price secondary then [record_of person cd name secondary]
    else []
  else [].
Proof.
  unfold group3. destruct (pedal_guard name); [|reflexivity].
  destruct (is_valid_price primary) eqn:Hp.
  - rewrite (price_from_valid _ _ Hp). simpl. now apply emit_valid.
  - rewrite (price_from_invalid _ _ Hp). simpl.
    destruct (is_valid_price secondary) eqn:Hs.
    + rewrite (price_from_valid _ _ Hs). now apply emit_valid.
    + rewrite (price_from_invalid _ _ Hs). reflexivity.
Qed.

Lemma group2_resolved (person : option string) (cd : datetime)
    (name primary : cell) :
  group2 person cd name primary =
  if pedal_guard name
  then if is_valid_price primary then [record_of person cd name primary]
       else []
  else [].
Proof.
  unfold group2. destruct (pedal_guard name); [|reflexivity].
  destruct (is_valid_price primary) eqn:Hp.
  - rewrite (price_from_valid _ _ Hp). now apply emit_valid.
  - rewrite (price_from_invalid _ _ Hp). reflexivity.
Qed.

(* ================================================================== *)
(** ** Whitespace and text *)

Ltac each_char c :=
  destruct c as [[] [] [] [] [] [] [] []]; try reflexivity; try discriminate.

Lemma isspace_lower_char (c : ascii) :
  PyStr.isspace (PyStr.lower_char c) = PyStr.isspace c.
Proof. each_char c. Qed.

Lemma isalpha_not_space (c : ascii) :
  PyStr.isalpha c = true -> PyStr.isspace c = false.
Proof. each_char c. Qed.

Lemma has_text_lower (s : string) : has_text (PyStr.lower s) = has_text s.
Proof.
  unfold has_text. induction s as [|c s IH]; [reflexivity|].
  simpl. now rewrite isspace_lower_char, IH.
Qed.

Lemma has_text_alpha (s : string) :
  PyStr.any_char PyStr.isalpha s = true -> has_text s = true.
Proof.
  unfold has_text. induction s as [|c s IH]; simpl; [discriminate|].
  rewrite !orb_true_iff. intros [H|H].
  - left. now rewrite (isalpha_not_space c H).
  - right. now apply IH.
Qed.

Lemma has_text_prefix (kw : string) :
  forall t, String.prefix kw t = true -> has_text kw = true ->
            has_text t = true.
Proof.
  unfold has_text. induction kw as [|a kw IH]; intros t Hp Hk.
  - discriminate.
  - destruct t as [|b t]; [discriminate|]. simpl in Hp.
    destruct (ascii_dec a b) as [->|]; [|discriminate].
    simpl in *. apply orb_true_iff in Hk. apply orb_true_iff.
    destruct Hk as [Hk|Hk]; [now left | right; now apply IH].
Qed.

Lemma has_text_contains (kw t : string) :
  PyStr.contains kw t = true -> has_text kw = true -> has_text t = true.
Proof.
  intros Hc Hk. induction t as [|b t IH].
  - simpl in Hc. rewrite orb_false_r in Hc.
    now apply (has_text_prefix kw).
  - simpl in Hc. apply orb_true_iff in Hc. destruct Hc as [Hc|Hc].
    + now apply (has_text_prefix kw).
    + unfold has_text in *. simpl. rewrite (IH Hc). apply orb_true_r.
Qed.

Lemma has_text_lstrip (s : string) : has_text (PyStr.lstrip s) = has_text s.
Proof.
  unfold has_text. induction s as [|c s IH]; [reflexivity|].
  simpl. destruct (PyStr.isspace c) eqn:E; [exact IH|].
  simpl. now rewrite E.
Qed.

Lemma nonempty_rstrip (s : string) :
  has_text s = true -> PyStr.nonempty (PyStr.rstrip s) = true.
Proof.
  unfold has_text. induction s as [|c s IH]; simpl; [discriminate|].
  intro H.
  destruct (PyStr.isspace c && negb (PyStr.nonempty (PyStr.rstrip s))) eqn:E;
    [|reflexivity].
  apply andb_true_iff in E. destruct E as [E1 E2].
  rewrite E1 in H. simpl in H. rewrite (IH H) in E2. discriminate.
Qed.

Lemma nonempty_strip (s : string) :
  has_text s = true -> PyStr.nonempty (PyStr.strip s) = true.
Proof.
  intro H. unfold PyStr.strip. apply nonempty_rstrip.
  now rewrite has_text_lstrip.
Qed.

Lemma first_char_lstrip (s : string) (c : ascii) :
  first_char (PyStr.lstrip s) = Some c -> PyStr.isspace c = false.
Proof.
  induction s as [|a s IH]; simpl; [discriminate|].
  destruct (PyStr.isspace a) eqn:E; [exact IH|].
  simpl. intro H. inversion H. now subst.
Qed.

Lemma first_char_rstrip (s : string) (c : ascii) :
  first_char (PyStr.rstrip s) = Some c -> first_char s = Some c.
Proof.
  destruct s as [|a s]; simpl; [discriminate|].
  destruct (PyStr.isspace a && negb (PyStr.nonempty (PyStr.rstrip s)));
    [discriminate | trivial].
Qed.

Lemma last_char_rstrip (s : string) (c : ascii) :
  last_char (PyStr.rstrip s) = Some c -> PyStr.isspace c = false.
Proof.
  induction s as [|a s IH]; simpl; [discriminate|].
  destruct (PyStr.rstrip s) as [|b r] eqn:R; simpl.
  - rewrite andb_true_r. destruct (PyStr.isspace a) eqn:E; [discriminate|].
    simpl. intro H. inversion H. now subst.
  - rewrite andb_false_r. exact IH.
Qed.

Lemma lstrip_fixed (t : string) :
  (forall c, first_char t = Some c -> PyStr.isspace c = false) ->
  PyStr.lstrip t = t.
Proof.
  destruct t as [|a t]; [reflexivity|]. intro H. simpl.
  now rewrite (H a eq_refl).
Qed.

Lemma rstrip_idempotent (s : string) :
  PyStr.rstrip (PyStr.rstrip s) = PyStr.rstrip s.
Proof.
  induction s as [|a s IH]; [reflexivity|]. simpl.
  destruct (PyStr.isspace a && negb (PyStr.nonempty (PyStr.rstrip s))) eqn:E;
    [reflexivity|].
  simpl. now rewrite IH, E.
Qed.

Lemma strip_idempotent (s : string) :
  PyStr.strip (PyStr.strip s) = PyStr.strip s.
Proof.
  unfold PyStr.strip.
  rewrite (lstrip_fixed (PyStr.rstrip (PyStr.lstrip s))).
  - apply rstrip_idempotent.
  - intros c H. apply first_char_rstrip in H.
    now apply first_char_lstrip in H.
Qed.

Lemma pedal_indicators_have_text : forallb has_text pedal_indicators = true.
Proof. vm_compute. reflexivity. Qed.

Lemma pedal_name_has_text (s : string) :
  is_pedal_name (CStr s) = true -> has_text s = true.
Proof.
  rewrite is_pedal_name_text.
  destruct (PyStr.any_in skip_keywords_pedal (PyStr.lower s)); [discriminate|].
  destruct (PyStr.any_in pedal_indicators (PyStr.lower s)) eqn:E.
  - intros _. apply any_in_true in E. destruct E as (kw & Hin & Hc).
    rewrite <- has_text_lower. apply (has_text_contains kw); [exact Hc|].
    pose proof pedal_indicators_have_text as A.
    rewrite forallb_forall in A. now apply A.
  - rewrite andb_true_iff. intros [_ H]. now apply has_text_alpha.
Qed.

Lemma pedal_guard_name (col : cell) :
  pedal_guard col = true ->
  PyStr.nonempty (PyStr.strip (py_str col)) = true.
Proof.
  intro H. destruct (pedal_guard_text col H) as (s & ->).
  unfold pedal_guard in H. apply andb_true_iff in H. destruct H as [_ H].
  simpl. apply nonempty_strip. now apply pedal_name_has_text.
Qed.

Lemma group_h_resolved (person : option string) (cd : datetime)
    (col_a col_d col_h : cell) :
  group_h person cd col_a col_d col_h =
  if is_valid_price col_h
  then
    if pedal_guard col_a then [record_of person cd col_a col_h]
    else if pedal_guard col_d then [record_of person cd col_d col_h]
    else []
  else [].
Proof.
  unfold group_h. destruct (is_valid_price col_h) eqn:Hv.
  - assert (Ht : truthy col_h = true).
    { destruct col_h as [ | [] | z | [q | [] | ] | s | d | o];
        simpl in *; try discriminate; try reflexivity.
      - destruct (z =? 0) eqn:E; [|reflexivity].
        apply Z.eqb_eq in E. subst z. discriminate.
      - destruct (Qeq_bool q 0) eqn:E; [|reflexivity].
        apply Qeq_bool_iff in E. apply andb_true_iff in Hv.
        destruct Hv as [Hv _]. apply Qltb_lt in Hv.
        rewrite E in Hv. exfalso. exact (Qlt_irrefl _ Hv). }
    rewrite Ht. cbn [andb].
    destruct (valid_price_converts col_h Hv) as [Hd Hn].
    rewrite Hd, Hn. cbn [negb andb].
    destruct (pedal_guard col_a) eqn:Ga.
    + now rewrite (pedal_guard_name col_a Ga).
    + destruct (pedal_guard col_d) eqn:Gd; [|reflexivity].
      now rewrite (pedal_guard_name col_d Gd).
  - rewrite andb_false_r. reflexivity.
Qed.

(* ================================================================== *)
(** ** Rows and what they append *)

Lemma process_row_data (ws : worksheet) (st : scan_state) (row_idx : nat) :
  is_potential_person (cell_value ws row_idx 1) = false ->
  process_row ws st row_idx
  = mkstate
      (cleaned_data st
       ++ row_records ws row_idx (current_person st) (effective_date st))
      (current_person st) (Some (effective_date st)) (last_valid_date st).
Proof.
  intro H. unfold process_row. rewrite H. cbn [andb].
  unfold row_records, effective_date.
  destruct (current_date st); reflexivity.
Qed.

Lemma process_row_person_row (ws : worksheet) (st : scan_state)
    (row_idx : nat) :
  is_potential_person (cell_value ws row_idx 1) = true ->
  cleaned_data (process_row ws st row_idx) = cleaned_data st.
Proof.
  intro H. unfold process_row. rewrite H. cbn [andb].
  destruct (has_valid_date (cell_value ws row_idx 2)); cbn [negb].
  - destruct (cell_value ws row_idx 2); reflexivity.
  - reflexivity.
Qed.

Lemma process_row_appends (ws : worksheet) (st : scan_state) (row_idx : nat) :
  exists new,
    cleaned_data (process_row ws st row_idx) = (cleaned_data st ++ new)%list
    /\ (is_potential_person (cell_value ws row_idx 1) = true -> new = [])
    /\ (is_potential_person (cell_value ws row_idx 1) = false ->
        new = row_records ws row_idx (current_person st) (effective_date st)).
Proof.
  destruct (is_potential_person (cell_value ws row_idx 1)) eqn:E.
  - exists []. rewrite app_nil_r.
    split; [now apply process_row_person_row|].
    split; [reflexivity | discriminate].
  - exists (row_records ws row_idx (current_person st) (effective_date st)).
    rewrite (process_row_data ws st row_idx E).
    split; [reflexivity|]. split; [discriminate | reflexivity].
Qed.

Lemma row_records_length (ws : worksheet) (row_idx : nat)
    (person : option string) (cd : datetime) :
  (length (row_records ws row_idx person cd) <= 4)%nat.
Proof.
  unfold row_records, extract_row.
  rewrite !length_app, !group3_resolved, group2_resolved, group_h_resolved.
  repeat match goal with
         | |- context [if ?b then _ else _] => destruct b
         end; simpl; lia.
Qed.

Lemma scan_from_length (ws : worksheet) (idxs : list nat) :
  forall st,
    (length (cleaned_data (fold_left (process_row ws) idxs st))
     <= length (cleaned_data st) + 4 * length idxs)%nat.
Proof.
  induction idxs as [|i idxs IH]; intro st; simpl; [lia|].
  specialize (IH (process_row ws st i)).
  destruct (process_row_appends ws st i) as (new & E & Hp & Hd).
  rewrite E, length_app in IH.
  assert ((length new <= 4)%nat).
  { destruct (is_potential_person (cell_value ws i 1)).
    - rewrite (Hp eq_refl). simpl. lia.
    - rewrite (Hd eq_refl). apply row_records_length. }
  lia.
Qed.

(** X1. A row appends at most four records to [cleaned_data] and leaves
    the records before it as they are; so a scan yields at most four
    records per row.  A row that fills the four checks yields four. *)
Theorem row_appends_at_most_four :
  (forall ws st row_idx,
     exists new,
       cleaned_data (process_row ws st row_idx) = (cleaned_data st ++ new)%list
       /\ (length new <= 4)%nat)
  /\ (forall ws,
        (length (cleaned_data (scan ws)) <= 4 * max_row ws)%nat)
  /\ length (cleaned_data (scan four_record_sheet)) = 4%nat.
Proof.
  split.
  { intros ws st i.
    destruct (process_row_appends ws st i) as (new & E & Hp & Hd).
    exists new. split; [exact E|].
    destruct (is_potential_person (cell_value ws i 1)).
    - rewrite (Hp eq_refl). simpl. lia.
    - rewrite (Hd eq_refl). apply row_records_length. }
  split.
  { intro ws. unfold scan.
    pose proof (scan_from_length ws (seq 1 (max_row ws)) initial_state) as H.
    rewrite length_seq in H. simpl in H. exact H. }
  vm_compute. reflexivity.
Qed.

(** X2. In a column group whose name cell is a pedal name, the primary
    price column wins: the record takes its price from it whatever the
    secondary column holds; the secondary column is used only when the
    primary holds no valid price; with no valid price in either, the group
    gives no record.  A group never gives more than one record. *)
Theorem price_columns_priority (person : option string) (cd : datetime)
    (name primary secondary : cell) :
  pedal_guard name = true ->
  (is_valid_price primary = true ->
   group3 person cd name primary secondary
   = [record_of person cd name primary])
  /\ (is_valid_price primary = false -> is_valid_price secondary = true ->
      group3 person cd name primary secondary
      = [record_of person cd name secondary])
  /\ (is_valid_price primary = false -> is_valid_price secondary = false ->
      group3 person cd name primary secondary = [])
  /\ (length (group3 person cd name primary secondary) <= 1)%nat.
Proof.
  intro G. rewrite group3_resolved, G.
  split; [intro H; now rewrite H|].
  split; [intros H1 H2; now rewrite H1, H2|].
  split; [intros H1 H2; now rewrite H1, H2|].
  destruct (is_valid_price primary), (is_valid_price secondary); simpl; lia.
Qed.

Lemma price_columns_priority_witness :
  pedal_guard (CStr "Tube Screamer") = true
  /\ group3 None anchor (CStr "Tube Screamer") (CInt 120) (CInt 95)
     = [record_of None anchor (CStr "Tube Screamer") (CInt 120)].
Proof.
  split; [reflexivity|].
  exact (proj1 (price_columns_priority None anchor (CStr "Tube Screamer")
                  (CInt 120) (CInt 95) eq_refl) eq_refl).
Defined.

(** X3. A valid price in column H gives one record, named by column A
    when column A is a pedal name, else by column D when that is one, else
    no record; without a valid price in column H the check gives nothing. *)
Theorem column_h_pairing (person : option string) (cd : datetime)
    (col_a col_d col_h : cell) :
  (is_valid_price col_h = true -> pedal_guard col_a = true ->
   group_h person cd col_a col_d col_h = [record_of person cd col_a col_h])
  /\ (is_valid_price col_h = true -> pedal_guard col_a = false ->
      pedal_guard col_d = true ->
      group_h person cd col_a col_d col_h = [record_of person cd col_d col_h])
  /\ (is_valid_price col_h = true -> pedal_guard col_a = false ->
      pedal_guard col_d = false ->
      group_h person cd col_a col_d col_h = [])
  /\ (is_valid_price col_h = false ->
      group_h person cd col_a col_d col_h = []).
Proof.
  rewrite group_h_resolved.
  split; [intros H1 H2; now rewrite H1, H2|].
  split; [intros H1 H2 H3; now rewrite H1, H2, H3|].
  split; [intros H1 H2 H3; now rewrite H1, H2, H3|].
  intro H. now rewrite H.
Qed.

Lemma pedal_name_not_price (col : cell) :
  pedal_guard col = true -> is_valid_price col = false.
Proof.
  intro H. destruct (pedal_guard_text col H) as (s & ->). reflexivity.
Qed.

(** X4. Column F has two roles, second price column of the group of
    column D and name column of its own group.  They exclude each other: a
    cell that is a pedal name is no valid price, so when column F opens a
    record the group of column D reads its price from column E alone. *)
Theorem column_f_roles_exclusive (person : option string) (cd : datetime)
    (col_d col_e col_f : cell) :
  pedal_guard col_f = true ->
  is_valid_price col_f = false
  /\ group3 person cd col_d col_e col_f = group2 person cd col_d col_e.
Proof.
  intro H. pose proof (pedal_name_not_price col_f H) as Hf.
  split; [exact Hf|].
  rewrite group3_resolved, group2_resolved, Hf. reflexivity.
Qed.

Lemma column_f_roles_exclusive_witness :
  pedal_guard (CStr "Walrus Julia") = true
  /\ group3 None anchor (CStr "MXR Phase 90") CNone (CStr "Walrus Julia")
     = group2 None anchor (CStr "MXR Phase 90") CNone.
Proof.
  split; [reflexivity|].
  exact (proj2 (column_f_roles_exclusive None anchor (CStr "MXR Phase 90")
                  CNone (CStr "Walrus Julia") eq_refl)).
Defined.


(* ================================================================== *)
(** ** Where the records come from *)

Lemma row_records_In (ws : worksheet) (r : nat) (person : option string)
    (cd : datetime) (c : Cand.t) :
  In c (row_records ws r person cd) ->
  exists nc pc,
    In (nc, pc) column_pairs
    /\ pedal_guard (cell_value ws r nc) = true
    /\ is_valid_price (cell_value ws r pc) = true
    /\ c = record_of person cd (cell_value ws r nc) (cell_value ws r pc).
Proof.
  unfold row_records, extract_row.
  rewrite !group3_resolved, group2_resolved, group_h_resolved.
  rewrite !in_app_iff.
  assert (R : forall nc pc n,
             In (nc, pc) column_pairs ->
             pedal_guard (cell_value ws r nc) = true ->
             is_valid_price (cell_value ws r pc) = true ->
             n = record_of person cd (cell_value ws r nc) (cell_value ws r pc) ->
             exists nc pc,
               In (nc, pc) column_pairs
               /\ pedal_guard (cell_value ws r nc) = true
               /\ is_valid_price (cell_value ws r pc) = true
               /\ n = record_of person cd (cell_value ws r nc)
                        (cell_value ws r pc)).
  { intros nc pc n H1 H2 H3 H4. exists nc, pc. auto. }
  intros [H | [H | [H | H]]].
  - destruct (pedal_guard (cell_value ws r 1)) eqn:G; [|contradiction].
    destruct (is_valid_price (cell_value ws r 2)) eqn:V2.
    + destruct H as [H|[]]. apply (R 1%nat 2%nat); simpl; auto.
    + destruct (is_valid_price (cell_value ws r 3)) eqn:V3; [|contradiction].
      destruct H as [H|[]]. apply (R 1%nat 3%nat); simpl; auto.
  - destruct (pedal_guard (cell_value ws r 4)) eqn:G; [|contradiction].
    destruct (is_valid_price (cell_value ws r 5)) eqn:V5.
    + destruct H as [H|[]]. apply (R 4%nat 5%nat); simpl; auto.
    + destruct (is_valid_price (cell_value ws r 6)) eqn:V6; [|contradiction].
      destruct H as [H|[]]. apply (R 4%nat 6%nat); simpl; auto.
  - destruct (pedal_guard (cell_value ws r 6)) eqn:G; [|contradiction].
    destruct (is_valid_price (cell_value ws r 7)) eqn:V7; [|contradiction].
    destruct H as [H|[]]. apply (R 6%nat 7%nat); simpl; auto 10.
  - destruct (is_valid_price (cell_value ws r 8)) eqn:V8; [|contradiction].
    destruct (pedal_guard (cell_value ws r 1)) eqn:G1.
    + destruct H as [H|[]]. apply (R 1%nat 8%nat); simpl; auto 10.
    + destruct (pedal_guard (cell_value ws r 4)) eqn:G4; [|contradiction].
      destruct H as [H|[]]. apply (R 4%nat 8%nat); simpl; auto 10.
Qed.

Lemma scan_from_records (ws : worksheet) (idxs : list nat) :
  forall st c,
    In c (cleaned_data (fold_left (process_row ws) idxs st)) ->
    In c (cleaned_data st)
    \/ exists i person cd,
         In i idxs
         /\ is_potential_person (cell_value ws i 1) = false
         /\ In c (row_records ws i person cd).
Proof.
  induction idxs as [|i idxs IH]; intros st c H; simpl in H; [now left|].
  destruct (IH _ _ H) as [H1 | (k & p & cd & Hk & Hp & Hc)].
  - destruct (process_row_appends ws st i) as (new & E & Hper & Hdata).
    rewrite E in H1. apply in_app_iff in H1. destruct H1 as [H1|H1];
      [now left|].
    right. destruct (is_potential_person (cell_value ws i 1)) eqn:P.
    + rewrite (Hper eq_refl) in H1. contradiction.
    + rewrite (Hdata eq_refl) in H1.
      exists i, (current_person st), (effective_date st).
      split; [now left | split; trivial].
  - right. exists k, p, cd. split; [now right | split; trivial].
Qed.

Lemma scan_records_from_rows (ws : worksheet) (c : Cand.t) :
  In c (cleaned_data (scan ws)) ->
  exists r,
    (1 <= r <= max_row ws)%nat
    /\ is_potential_person (cell_value ws r 1) = false
    /\ from_row ws r c.
Proof.
  intro H. apply scan_from_records in H.
  destruct H as [[] | (r & p & cd & Hr & Hp & Hc)].
  exists r. apply in_seq in Hr. split; [lia|]. split; [exact Hp|].
  destruct (row_records_In ws r p cd c Hc) as (nc & pc & H1 & H2 & H3 & ->).
  exists nc, pc. simpl. auto.
Qed.

(** X6. Every record of the scan is made of two cells of one row that is
    no person row: a name cell in column A, D or F that passes the
    pedal-name test, whose stripped text is the record's [pedal_name], and a
    price cell of the same column group (or column H) that passes the price
    test, whose converted value is the record's [price]. *)
Theorem record_provenance (ws : worksheet) (c : Cand.t) :
  In c (cleaned_data (scan ws)) ->
  exists r,
    (1 <= r <= max_row ws)%nat
    /\ is_potential_person (cell_value ws r 1) = false
    /\ from_row ws r c.
Proof. exact (scan_records_from_rows ws c). Qed.

Lemma record_provenance_witness :
  exists r,
    (1 <= r <= max_row tube_screamer_sheet)%nat
    /\ is_potential_person (cell_value tube_screamer_sheet r 1) = false
    /\ from_row tube_screamer_sheet r
         (Cand.mk "Mike Jones" "Tube Screamer" (FFinite (120 # 1))
            (mkdatetime 2025 7 25 0 0 0 0)).
Proof.
  exact (record_provenance tube_screamer_sheet
           (Cand.mk "Mike Jones" "Tube Screamer" (FFinite (120 # 1))
              (mkdatetime 2025 7 25 0 0 0 0))
           (or_introl eq_refl)).
Defined.

(** *** The person and the date of a record *)

Lemma person_name_nonempty (s : string) :
  is_person_name_simple (CStr s) = true ->
  PyStr.nonempty (PyStr.strip s) = true.
Proof.
  intro H. apply is_person_name_simple_text in H.
  destruct H as ((Hlen & _) & _).
  destruct (PyStr.strip s); [|reflexivity].
  vm_compute in Hlen. now contradiction Hlen.
Qed.

Section Sources.

Variable ws : worksheet.

Lemma sourced_initial : sourced_state ws initial_state.
Proof.
  split; [constructor|]. split; [now left|].
  split; intros x H; discriminate.
Qed.

Lemma sourced_effective_date (st : scan_state) :
  sourced_state ws st -> date_source ws (effective_date st).
Proof.
  intros (_ & Hl & Hc & _). unfold effective_date.
  destruct (current_date st) as [d|]; [now apply Hc | exact Hl].
Qed.

Lemma sourced_person_or_unknown (st : scan_state) :
  sourced_state ws st ->
  person_source ws (person_or_unknown (current_person st))
  /\ PyStr.nonempty (person_or_unknown (current_person st)) = true.
Proof.
  intros (_ & _ & _ & Hp). unfold person_or_unknown.
  destruct (current_person st) as [p|]; [|split; [now left | reflexivity]].
  destruct (Hp p eq_refl) as [H1 H2]. rewrite H2. now split.
Qed.

Lemma sourced_process_row (st : scan_state) (i : nat) :
  (1 <= i <= max_row ws)%nat -> sourced_state ws st -> sourced_state ws (process_row ws st i).
Proof.
  intros Hi Hst.
  destruct (is_potential_person (cell_value ws i 1)) eqn:P.
  - (* a person row *)
    assert (Hn : is_person_name_simple (cell_value ws i 1) = true).
    { unfold is_potential_person in P. now apply andb_true_iff in P. }
    destruct (person_guard_text _ P) as (s & Hs).
    assert (Hsrc : person_source ws (PyStr.strip s)
                   /\ PyStr.nonempty (PyStr.strip s) = true).
    { split.
      - right. exists i, s. auto.
      - apply person_name_nonempty. now rewrite <- Hs. }
    destruct Hst as (Hd & Hl & Hc & Hp).
    unfold process_row. rewrite P. cbn [andb]. rewrite Hs. simpl.
    destruct (has_valid_date (cell_value ws i 2)) eqn:V; cbn [negb].
    + apply has_valid_date_iff in V. destruct V as (d & Hb & Hge).
      rewrite Hb.
      assert (date_source ws d) by (right; exists i; auto).
      split; [exact Hd|]. split; [assumption|]. simpl.
      split; intros x E; inversion E; subst; assumption.
    + split; [exact Hd|]. split; [exact Hl|]. simpl.
      split; intros x E; inversion E; subst; assumption.
  - (* a data row *)
    rewrite (process_row_data ws st i P).
    pose proof (sourced_effective_date st Hst) as Hed.
    pose proof (sourced_person_or_unknown st Hst) as Hpu.
    destruct Hst as (Hd & Hl & Hc & Hp).
    split; [|split; [exact Hl | split; [|exact Hp]]]; simpl.
    + apply Forall_app. split; [exact Hd|].
      apply Forall_forall. intros c Hin.
      destruct (row_records_In ws i _ _ c Hin) as (nc & pc & _ & _ & _ & ->).
      simpl. tauto.
    + intros d E. inversion E. now subst d.
Qed.

Lemma sourced_scan_from (idxs : list nat) :
  (forall i, In i idxs -> (1 <= i <= max_row ws)%nat) ->
  forall st, sourced_state ws st -> sourced_state ws (fold_left (process_row ws) idxs st).
Proof.
  induction idxs as [|i idxs IH]; intros Hin st H; simpl; [exact H|].
  apply IH.
  - intros k Hk. apply Hin. now right.
  - apply sourced_process_row; [apply Hin; now left | exact H].
Qed.

Lemma scan_sources (c : Cand.t) :
  In c (cleaned_data (scan ws)) ->
  date_source ws (Cand.date c)
  /\ person_source ws (Cand.person c)
  /\ PyStr.nonempty (Cand.person c) = true.
Proof.
  intro H.
  assert (S : sourced_state ws (scan ws)).
  { apply sourced_scan_from; [|exact sourced_initial].
    intros i Hi. apply in_seq in Hi. lia. }
  destruct S as (Hd & _). rewrite Forall_forall in Hd. now apply Hd.
Qed.

End Sources.

Lemma ge_anchor_fields (d : datetime) :
  PyDate.ge d anchor = true ->
  on_or_after_anchor (year d) (month d) (day d).
Proof.
  unfold PyDate.ge, PyDate.cmp, PyDate.fields, anchor, on_or_after_anchor.
  simpl.
  destruct (year d ?= 2025) eqn:Ey.
  - apply Z.compare_eq_iff in Ey.
    destruct (month d ?= 7) eqn:Em.
    + apply Z.compare_eq_iff in Em.
      destruct (day d ?= 24) eqn:Ed.
      * apply Z.compare_eq_iff in Ed. intros _. lia.
      * discriminate.
      * apply Z.compare_gt_iff in Ed. intros _. lia.
    + discriminate.
    + apply Z.compare_gt_iff in Em. intros _. lia.
  - discriminate.
  - apply Z.compare_gt_iff in Ey. intros _. lia.
Qed.

Lemma date_source_ge (ws : worksheet) (d : datetime) :
  date_source ws d -> PyDate.ge d anchor = true.
Proof. intros [-> | (r & _ & _ & _ & H)]; [reflexivity | exact H]. Qed.

(** X7. Every date of a record is the anchor 2025-07-24 or the column B
    date of a person row of the sheet, taken only when it is the anchor or
    later; so no record is dated before the anchor, and on a sheet of
    valid dates the [date] text of every returned record reads as a day on
    or after 2025-07-24. *)
Theorem sale_dates_from_anchor (ws : worksheet) :
  (forall c, In c (cleaned_data (scan ws)) ->
     date_source ws (Cand.date c) /\ PyDate.ge (Cand.date c) anchor = true)
  /\ (forall u out r,
        sheet_wf ws = true -> clean_spreadsheet u ws = Ok out -> In r out ->
        exists y m d,
          read_ymd (Out.date r) = Some (y, m, d)
          /\ on_or_after_anchor y m d).
Proof.
  split.
  - intros c H. destruct (scan_sources ws c H) as (Hd & _).
    split; [exact Hd | now apply (date_source_ge ws)].
  - intros u out r Hws Hout Hin.
    destruct (clean_spreadsheet_In u ws out r Hout Hin)
      as (c & e & Hc & _ & ->).
    destruct (scan_ok ws Hws) as (Hdata & _).
    rewrite Forall_forall in Hdata. destruct (Hdata c Hc) as [Hv _].
    exists (year (Cand.date c)), (month (Cand.date c)), (day (Cand.date c)).
    simpl. split; [now apply read_ymd_valid|].
    apply ge_anchor_fields. apply (date_source_ge ws).
    now destruct (scan_sources ws c Hc).
Qed.

(** X8. The [person] of every record of the scan is the sentinel
    "Unknown" or the stripped column A text of a person row of the sheet;
    it is never the empty text. *)
Theorem record_person_source (ws : worksheet) (c : Cand.t) :
  In c (cleaned_data (scan ws)) ->
  person_source ws (Cand.person c) /\ PyStr.nonempty (Cand.person c) = true.
Proof. intro H. now destruct (scan_sources ws c H) as (_ & H1 & H2). Qed.

Lemma record_person_source_witness :
  person_source tube_screamer_sheet "Mike Jones"
  /\ PyStr.nonempty "Mike Jones" = true.
Proof.
  exact (record_person_source tube_screamer_sheet
           (Cand.mk "Mike Jones" "Tube Screamer" (FFinite (120 # 1))
              (mkdatetime 2025 7 25 0 0 0 0))
           (or_introl eq_refl)).
Defined.

(** X9. A person row hands its context to the data row processed next:
    the records of that row carry the person's stripped name, not
    "Unknown", and one common date, which is the person row's column B
    date when that is a date from the anchor on, and else the last valid
    date seen before. *)
Theorem person_context_reaches_next_row
    (ws : worksheet) (st : scan_state) (i j : nat) :
  is_person_name_simple (cell_value ws i 1) = true ->
  is_potential_person (cell_value ws j 1) = false ->
  exists s cd,
    cell_value ws i 1 = CStr s
    /\ cleaned_data (process_row ws (process_row ws st i) j)
       = (cleaned_data st ++ row_records ws j (Some (PyStr.strip s)) cd)%list
    /\ (forall c, In c (row_records ws j (Some (PyStr.strip s)) cd) ->
          Cand.person c = PyStr.strip s /\ Cand.date c = cd)
    /\ (forall d, cell_value ws i 2 = CDate d -> PyDate.ge d anchor = true ->
          cd = d)
    /\ ((forall d, cell_value ws i 2 = CDate d ->
           PyDate.ge d anchor = false) ->
        cd = last_valid_date st).
Proof.
  intros Hi Hj.
  destruct (process_row_person ws st i Hi) as (s & Hs & Hp & Hdata & Hv & Hn).
  exists s, (effective_date (process_row ws st i)).
  split; [exact Hs|]. split.
  { rewrite (process_row_data ws _ j Hj). simpl. now rewrite Hp, Hdata. }
  split.
  { intros c Hc.
    destruct (row_records_In ws j _ _ c Hc) as (nc & pc & _ & _ & _ & ->).
    simpl. split; [|reflexivity].
    rewrite (person_name_nonempty s); [reflexivity | now rewrite <- Hs]. }
  split.
  - intros d Hb Hge. destruct (Hv d Hb Hge) as [Hc _].
    unfold effective_date. now rewrite Hc.
  - intro H. destruct (Hn H) as [Hc _].
    unfold effective_date. now rewrite Hc.
Qed.

Lemma person_context_reaches_next_row_witness :
  is_person_name_simple (cell_value tube_screamer_sheet 1 1) = true
  /\ is_potential_person (cell_value tube_screamer_sheet 2 1) = false
  /\ exists s cd,
       cell_value tube_screamer_sheet 1 1 = CStr s
       /\ cleaned_data
            (process_row tube_screamer_sheet
               (process_row tube_screamer_sheet initial_state 1) 2)
          = (cleaned_data initial_state
             ++ row_records tube_screamer_sheet 2 (Some (PyStr.strip s)) cd)%list.
Proof.
  split; [reflexivity|]. split; [reflexivity|].
  destruct (person_context_reaches_next_row tube_screamer_sheet
              initial_state 1 2 eq_refl eq_refl)
    as (s & cd & H1 & H2 & _).
  exists s, cd. split; assumption.
Defined.

(** *** The names of the records *)

Lemma stripped_name (col : cell) :
  pedal_guard col = true ->
  PyStr.nonempty (PyStr.strip (py_str col)) = true
  /\ PyStr.strip (PyStr.strip (py_str col)) = PyStr.strip (py_str col)
  /\ (forall ch, first_char (PyStr.strip (py_str col)) = Some ch ->
        PyStr.isspace ch = false)
  /\ (forall ch, last_char (PyStr.strip (py_str col)) = Some ch ->
        PyStr.isspace ch = false).
Proof.
  intro H. split; [now apply pedal_guard_name|].
  split; [apply strip_idempotent|].
  split; intros ch Hc; unfold PyStr.strip in Hc.
  - apply first_char_rstrip in Hc. now apply first_char_lstrip in Hc.
  - now apply last_char_rstrip in Hc.
Qed.

(** X10. The [pedal_name] of every record of the scan, and so of every
    record returned, is a non-empty text without leading or trailing
    whitespace: its first and its last character are no whitespace, and
    stripping it again changes nothing. *)
Theorem pedal_names_are_stripped (ws : worksheet) :
  (forall c, In c (cleaned_data (scan ws)) ->
     PyStr.nonempty (Cand.pedal_name c) = true
     /\ PyStr.strip (Cand.pedal_name c) = Cand.pedal_name c
     /\ (forall ch, first_char (Cand.pedal_name c) = Some ch ->
           PyStr.isspace ch = false)
     /\ (forall ch, last_char (Cand.pedal_name c) = Some ch ->
           PyStr.isspace ch = false))
  /\ (forall u out r, clean_spreadsheet u ws = Ok out -> In r out ->
        PyStr.nonempty (Out.pedal_name r) = true
        /\ PyStr.strip (Out.pedal_name r) = Out.pedal_name r).
Proof.
  assert (A : forall c, In c (cleaned_data (scan ws)) ->
     PyStr.nonempty (Cand.pedal_name c) = true
     /\ PyStr.strip (Cand.pedal_name c) = Cand.pedal_name c
     /\ (forall ch, first_char (Cand.pedal_name c) = Some ch ->
           PyStr.isspace ch = false)
     /\ (forall ch, last_char (Cand.pedal_name c) = Some ch ->
           PyStr.isspace ch = false)).
  { intros c H.
    destruct (scan_records_from_rows ws c H)
      as (r & _ & _ & nc & pc & _ & G & _ & -> & _).
    now apply stripped_name. }
  split; [exact A|].
  intros u out r Hout Hin.
  destruct (clean_spreadsheet_In u ws out r Hout Hin)
    as (c & e & Hc & _ & ->).
  simpl. destruct (A c Hc) as (H1 & H2 & _). now split.
Qed.

(** *** Nothing that resolves is lost *)

Lemma scan_from_keeps (ws : worksheet) (idxs : list nat) :
  forall st c,
    In c (cleaned_data st) ->
    In c (cleaned_data (fold_left (process_row ws) idxs st)).
Proof.
  induction idxs as [|i idxs IH]; intros st c H; simpl; [exact H|].
  apply IH. destruct (process_row_appends ws st i) as (new & E & _).
  rewrite E. apply in_app_iff. now left.
Qed.

Lemma scan_row_records (ws : worksheet) (r : nat) :
  (1 <= r <= max_row ws)%nat ->
  is_potential_person (cell_value ws r 1) = false ->
  exists person cd,
    forall c, In c (row_records ws r person cd) ->
              In c (cleaned_data (scan ws)).
Proof.
  intros Hr Hp.
  assert (Hin : In r (seq 1 (max_row ws))) by (apply in_seq; lia).
  apply in_split in Hin. destruct Hin as (l1 & l2 & E).
  unfold scan. rewrite E, fold_left_app. simpl.
  set (st := fold_left (process_row ws) l1 initial_state).
  exists (current_person st), (effective_date st).
  intros c Hc. apply scan_from_keeps.
  rewrite (process_row_data ws st r Hp). simpl.
  apply in_app_iff. now right.
Qed.

(** X11. No resolved pair is lost: on a row of the sheet that is no
    person row, a pedal name in column A, D or F with a valid price in the
    primary price column of its group (B, E or G), and a pedal name in
    column A with a valid price in column H, each give a record of the scan
    with that name, stripped, and that price, converted. *)
Theorem extraction_complete (ws : worksheet) (r nc pc : nat) :
  (1 <= r <= max_row ws)%nat ->
  is_potential_person (cell_value ws r 1) = false ->
  In (nc, pc) [(1, 2); (4, 5); (6, 7); (1, 8)]%nat ->
  pedal_guard (cell_value ws r nc) = true ->
  is_valid_price (cell_value ws r pc) = true ->
  exists c,
    In c (cleaned_data (scan ws))
    /\ Cand.pedal_name c = PyStr.strip (py_str (cell_value ws r nc))
    /\ Cand.price c = py_float (convert_date_to_price (cell_value ws r pc)).
Proof.
  intros Hr Hp Hcol G V.
  destruct (scan_row_records ws r Hr Hp) as (person & cd & Hall).
  exists (record_of person cd (cell_value ws r nc) (cell_value ws r pc)).
  split; [|split; reflexivity].
  apply Hall. unfold row_records, extract_row.
  rewrite !group3_resolved, group2_resolved, group_h_resolved.
  rewrite !in_app_iff.
  simpl in Hcol.
  destruct Hcol as [E | [E | [E | [E | []]]]]; inversion E; subst nc pc;
    rewrite ?G, ?V; simpl; auto.
Qed.

Lemma extraction_complete_witness :
  exists c,
    In c (cleaned_data (scan tube_screamer_sheet))
    /\ Cand.pedal_name c = "Tube Screamer"
    /\ Cand.price c = FFinite (120 # 1).
Proof.
  exact (extraction_complete tube_screamer_sheet 2 1 2
           (conj (le_S 1 1 (le_n 1)) (le_n 2)) eq_refl
           (or_introl eq_refl) eq_refl eq_refl).
Defined.

(* ================================================================== *)
(** ** The frame that is returned *)

Lemma mapM_assemble (f : datetime -> result datetime) (rs : list Cand.t) :
  forall exps,
    mapM f (map Cand.date rs) = Ok exps ->
    map Out.pedal_name (assemble rs exps) = map Cand.pedal_name rs
    /\ map Out.price (assemble rs exps) = map Cand.price rs
    /\ map Out.date (assemble rs exps)
       = map (fun c => PyDate.strftime (Cand.date c)) rs.
Proof.
  induction rs as [|c rs IH]; intros exps H.
  - simpl in H. inversion H. simpl. auto.
  - simpl in H.
    destruct (f (Cand.date c)) as [e|x]; [|discriminate].
    simpl in H.
    destruct (mapM f (map Cand.date rs)) as [es|x]; [|discriminate].
    simpl in H. inversion H. subst exps.
    destruct (IH es eq_refl) as (H1 & H2 & H3).
    simpl. now rewrite H1, H2, H3.
Qed.

(** X12. [clean_spreadsheet] never returns an empty frame: when it
    returns, it returns one record for each record of the scan, in the
    order of the scan, with the same pedal name and price and with the
    scan's date written as text; only the person is dropped. *)
Theorem assembly_keeps_records
    (u : resolution) (ws : worksheet) (out : list Out.t) :
  clean_spreadsheet u ws = Ok out ->
  out <> []
  /\ map Out.pedal_name out = map Cand.pedal_name (cleaned_data (scan ws))
  /\ map Out.price out = map Cand.price (cleaned_data (scan ws))
  /\ map Out.date out
     = map (fun c => PyDate.strftime (Cand.date c)) (cleaned_data (scan ws)).
Proof.
  intro H.
  destruct (clean_spreadsheet_Ok u ws out H) as (Hne & exps & Em & ->).
  destruct (mapM_assemble _ _ exps Em) as (H1 & H2 & H3).
  split; [|auto].
  intro E. rewrite E in H1. simpl in H1.
  destruct (cleaned_data (scan ws)); [now apply Hne | discriminate].
Qed.

Lemma assembly_keeps_records_witness :
  map Out.pedal_name
    [Out.mk "Tube Screamer" (FFinite (120 # 1)) "2025-07-25" "2026-07-25"]
  = map Cand.pedal_name (cleaned_data (scan tube_screamer_sheet)).
Proof.
  exact (proj1 (proj2
    (assembly_keeps_records ns tube_screamer_sheet
       [Out.mk "Tube Screamer" (FFinite (120 # 1)) "2025-07-25" "2026-07-25"]
       eq_refl))).
Defined.

(** *** When the frame is returned *)

Lemma in_bounds_years (u : resolution) (d : datetime) :
  1678 <= year d <= 2261 -> in_bounds u d = true.
Proof.
  intro H. destruct u; simpl.
  - rewrite (year_ge d Timestamp_min_ns) by (simpl; lia).
    rewrite (year_ge Timestamp_max_ns d) by (simpl; lia). reflexivity.
  - apply year_ge. simpl. lia.
Qed.

Lemma Timestamp_add_returns (u : resolution) (d : datetime) :
  PyDate.valid_datetime d = true -> 2025 <= year d <= 2260 ->
  in_bounds u d = true /\ exists e, Timestamp_add u d 365 = Ok e.
Proof.
  intros Hv Hy. split; [apply in_bounds_years; lia|].
  pose proof (shift_365_year d Hv) as Hs.
  unfold Timestamp_add.
  rewrite (in_bounds_years u (PyDate.shift_days d 365)) by lia.
  eauto.
Qed.

Lemma mapM_returns {A B : Type} (f : A -> result B) (l : list A) :
  (forall x, In x l -> exists y, f x = Ok y) ->
  exists ys, mapM f l = Ok ys /\ length ys = length l.
Proof.
  induction l as [|a l IH]; intro H.
  - exists []. split; reflexivity.
  - destruct (H a (or_introl eq_refl)) as (b & Hb).
    destruct IH as (ys & Hys & Hlen); [intros x Hx; apply H; now right|].
    exists (b :: ys). simpl. rewrite Hb. simpl. rewrite Hys. simpl.
    split; [reflexivity | now rewrite Hlen].
Qed.

Lemma assemble_length (rs : list Cand.t) :
  forall exps, length exps = length rs ->
               length (assemble rs exps) = length rs.
Proof.
  induction rs as [|c rs IH]; intros exps H; [reflexivity|].
  destruct exps as [|e exps]; [discriminate|].
  simpl. f_equal. apply IH. now inversion H.
Qed.

(** X13. On a sheet whose date cells are valid and whose column B dates
    lie before the year 2261 (inside the range of [datetime] and of
    nanosecond timestamps), [clean_spreadsheet] returns as soon as the scan
    has one record, with as many records as the scan, under either
    resolution. *)
Theorem clean_spreadsheet_returns (u : resolution) (ws : worksheet) :
  sheet_wf ws = true ->
  (forall r d, cell_value ws r 2 = CDate d -> year d <= 2260) ->
  cleaned_data (scan ws) <> [] ->
  exists out,
    clean_spreadsheet u ws = Ok out
    /\ length out = length (cleaned_data (scan ws)).
Proof.
  intros Hws Hyears Hne.
  destruct (scan_ok ws Hws) as (Hdata & _). rewrite Forall_forall in Hdata.
  assert (Hall : forall x, In x (map Cand.date (cleaned_data (scan ws))) ->
                   in_bounds u x = true
                   /\ exists y, Timestamp_add u x 365 = Ok y).
  { intros x Hx. apply in_map_iff in Hx. destruct Hx as (c & <- & Hc).
    destruct (Hdata c Hc) as [Hv _].
    apply Timestamp_add_returns; [exact Hv|].
    destruct (scan_sources ws c Hc) as (Hsrc & _).
    pose proof (ge_year _ _ (date_source_ge ws _ Hsrc)) as Hlow.
    simpl in Hlow. split; [exact Hlow|].
    destruct Hsrc as [E | (r & _ & _ & Hb & _)].
    - rewrite E. simpl. lia.
    - now apply (Hyears r). }
  destruct (mapM_returns (fun x => Timestamp_add u x 365)
              (map Cand.date (cleaned_data (scan ws))))
    as (exps & Hm & Hlen); [intros x Hx; now apply Hall|].
  rewrite length_map in Hlen.
  exists (assemble (cleaned_data (scan ws)) exps).
  split; [|now apply assemble_length].
  assert (Ht : date_dtype u (map Cand.date (cleaned_data (scan ws)))
               = datetime64).
  { unfold date_dtype.
    replace (forallb (in_bounds u) (map Cand.date (cleaned_data (scan ws))))
      with true; [reflexivity|].
    symmetry. apply forallb_forall. intros x Hx. now apply Hall. }
  unfold clean_spreadsheet.
  destruct (cleaned_data (scan ws)) as [|c0 rest] eqn:E;
    [now contradiction Hne|].
  unfold getitem_date. simpl DataFrame_of. cbn [columns rows].
  change (PyStr.mem "date" ["person"; "pedal_name"; "price"; "date"])
    with true.
  cbn [bind]. rewrite Ht, Hm. reflexivity.
Qed.

Lemma clean_spreadsheet_returns_witness :
  exists out,
    clean_spreadsheet ns tube_screamer_sheet = Ok out
    /\ length out = length (cleaned_data (scan tube_screamer_sheet)).
Proof.
  apply (clean_spreadsheet_returns ns tube_screamer_sheet eq_refl).
  - intros r d.
    destruct r as [|r1]; [|destruct r1 as [|r2]; [|destruct r2 as [|r3]]].
    + simpl. intro H. inversion H. simpl. lia.
    + simpl. intro H. inversion H. simpl. lia.
    + simpl. discriminate.
    + destruct r3; simpl; discriminate.
  - discriminate.
Defined.

(* ================================================================== *)
(** ** What the scan does not look at *)

Lemma cell_value_firstn (ws : worksheet) (r c : nat) :
  (c <= 8)%nat ->
  cell_value (map (firstn 8) ws) r c = cell_value ws r c.
Proof.
  intro Hc. unfold cell_value.
  change (@nil cell) with (firstn 8 (@nil cell)) at 1.
  rewrite (map_nth (firstn 8)), nth_firstn.
  assert (E : (c - 1 <? 8)%nat = true) by (apply Nat.ltb_lt; lia).
  rewrite E. reflexivity.
Qed.

Lemma process_row_firstn (ws : worksheet) (st : scan_state) (row_idx : nat) :
  process_row (map (firstn 8) ws) st row_idx = process_row ws st row_idx.
Proof.
  unfold process_row. rewrite !cell_value_firstn by lia. reflexivity.
Qed.

Lemma scan_from_firstn (ws : worksheet) (idxs : list nat) :
  forall st,
    fold_left (process_row (map (firstn 8) ws)) idxs st
    = fold_left (process_row ws) idxs st.
Proof.
  induction idxs as [|i idxs IH]; intro st; simpl; [reflexivity|].
  now rewrite process_row_firstn, IH.
Qed.

(** X14. The scan reads columns A to H and nothing else: cutting every
    row of the sheet after its eighth cell changes neither the state the
    scan ends in nor the result of [clean_spreadsheet]. *)
Theorem columns_beyond_h_ignored (ws : worksheet) :
  scan (map (firstn 8) ws) = scan ws
  /\ (forall u,
        clean_spreadsheet u (map (firstn 8) ws) = clean_spreadsheet u ws).
Proof.
  assert (E : scan (map (firstn 8) ws) = scan ws).
  { unfold scan, max_row. rewrite length_map. apply scan_from_firstn. }
  split; [exact E|]. intro u. unfold clean_spreadsheet. now rewrite E.
Qed.

(** X15. The person-name test does not see surrounding whitespace: a text
    and its stripped form get the same answer.  The pedal-name test does,
    as it measures the text as it is: "Abcde" is too short to be a pedal
    name and "Abcde " is one. *)
Theorem person_name_ignores_padding :
  (forall s,
     is_person_name_simple (CStr s)
     = is_person_name_simple (CStr (PyStr.strip s)))
  /\ is_pedal_name (CStr "Abcde") = false
  /\ is_pedal_name (CStr "Abcde ") = true.
Proof.
  split.
  - intro s. unfold is_person_name_simple.
    rewrite strip_idempotent. reflexivity.
  - split; vm_compute; reflexivity.
Qed.
